(** * cli/jl_exports.h: the re-export tables of libjulia

    [cli/jl_exports.h] has no run-time algorithm: it is a sequence of X-macro
    expansions over the curated symbol lists of [src/jl_exported_data.inc] and
    [src/jl_exported_funcs.inc].  The embedding below is the preprocessor's
    view of that header: a function from a build configuration (the two
    feature macros and the curated lists) to the translation unit the header
    expands to, one top-level item per expanded line, in source order.

    The curated lists and the attribute macros [JL_DLLEXPORT], [JL_HIDDEN] and
    [NTAPI] are defined outside this header.  The lists are fields of the
    build configuration; the attribute macros are kept as the annotations the
    header writes.  Macro arguments are taken to be plain identifiers (no
    object-like macro of the same name is in scope), so [&name] names the
    symbol [name]. *)

From stdpp Require Import base list strings.

(** ** Tokens *)

(** Identifiers are kept as their spelling. *)
Abbreviation ident := string (only parsing).

(** [#name]: the spelling of the argument as a string literal. *)
Definition stringize (name : ident) : string := name.

(** [name##_addr]: the argument pasted in front of the token [_addr]. *)
Definition paste_addr (name : ident) : ident := name +:+ "_addr".

(** [#name"_impl"]: two adjacent string literals, which C concatenates. *)
Definition stringize_impl (name : ident) : string := stringize name +:+ "_impl".

(** ** Top-level items of the expanded header *)

(** The linkage annotation in front of an item, as the header writes it. *)
Inductive linkage : Set :=
  | JL_DLLEXPORT
  | JL_HIDDEN
  | static.

Inductive ctype : Set :=
  | const_void_ptr              (* const void *            *)
  | declared (type : string)    (* the type given in the data-symbol list *)
  | size_t
  | anonfunc_ptr.               (* anonfunc *              *)

Inductive initializer : Set :=
  | addr_of (name : ident)      (* = (anonfunc* )&name      *)
  | NULL.                       (* = NULL                  *)

Inductive toplevel : Set :=
  (* linkage type name [= init]; *)
  | Var (l : linkage) (ty : ctype) (name : ident) (init : option initializer)
  (* linkage void [NTAPI] name(void); *)
  | Proto (l : linkage) (ntapi : bool) (name : ident)
  (* typedef void (anonfunc)(void); *)
  | Typedef_anonfunc
  (* static const char *const name[] = { ... };  None is NULL *)
  | NameTable (name : ident) (elems : list (option string))
  (* static anonfunc **const name[] = { ... };  Some s is &s, None is NULL *)
  | AddrTable (name : ident) (elems : list (option ident)).

Global Instance linkage_eq_dec : EqDecision linkage.
Proof. solve_decision. Defined.
Global Instance ctype_eq_dec : EqDecision ctype.
Proof. solve_decision. Defined.
Global Instance initializer_eq_dec : EqDecision initializer.
Proof. solve_decision. Defined.
Global Instance toplevel_eq_dec : EqDecision toplevel.
Proof. solve_decision. Defined.

(** The identifier an item introduces at file scope. *)
Definition declared_name (d : toplevel) : ident :=
  match d with
  | Var _ _ name _ => name
  | Proto _ _ name => name
  | Typedef_anonfunc => "anonfunc"
  | NameTable name _ => name
  | AddrTable name _ => name
  end.

Definition declared_linkage (d : toplevel) : option linkage :=
  match d with
  | Var l _ _ _ => Some l
  | Proto l _ _ => Some l
  | Typedef_anonfunc => None
  | NameTable _ _ => Some static
  | AddrTable _ _ => Some static
  end.

(** ** Build configuration *)

(** The feature macros the header tests and the curated lists it includes.
    A list holds the arguments of the successive [XX(...)] of the X-macro of
    the same name, in the order they are written. *)
Record build : Set := Build {
  _OS_WINDOWS_ : bool;
  HAVE_SSP : bool;
  exported_data_pointers : list ident;
  exported_data_pointers_win : list ident;
  exported_data_symbols : list (ident * string);
  exported_data_symbols_win : list (ident * string);
  runtime_exported_funcs : list ident;
  runtime_exported_funcs_win : list ident;
  runtime_exported_func_addrs : list ident;
  codegen_exported_funcs : list ident
}.

(** [#ifdef flag ... #endif] and [#ifndef flag ... #endif] around a run of
    items. *)
Definition ifdef {A} (flag : bool) (body : list A) : list A :=
  if flag then body else [].

Definition ifndef {A} (flag : bool) (body : list A) : list A :=
  if flag then [] else body.

Section Header.
Variable b : build.

(** *** The X-macros of the included lists *)

Definition JL_EXPORTED_DATA_POINTERS {A} (XX : ident → A) : list A :=
  XX <$> exported_data_pointers b.
Definition JL_EXPORTED_DATA_POINTERS_WIN {A} (XX : ident → A) : list A :=
  XX <$> exported_data_pointers_win b.
Definition JL_EXPORTED_DATA_SYMBOLS {A} (XX : ident → string → A) : list A :=
  uncurry XX <$> exported_data_symbols b.
Definition JL_EXPORTED_DATA_SYMBOLS_WIN {A} (XX : ident → string → A) : list A :=
  uncurry XX <$> exported_data_symbols_win b.
Definition JL_RUNTIME_EXPORTED_FUNCS {A} (XX : ident → A) : list A :=
  XX <$> runtime_exported_funcs b.
Definition JL_RUNTIME_EXPORTED_FUNCS_WIN {A} (XX : ident → A) : list A :=
  XX <$> runtime_exported_funcs_win b.
Definition JL_RUNTIME_EXPORTED_FUNC_ADDRS {A} (XX : ident → A) : list A :=
  XX <$> runtime_exported_func_addrs b.
Definition JL_CODEGEN_EXPORTED_FUNCS {A} (XX : ident → A) : list A :=
  XX <$> codegen_exported_funcs b.

(** *** Lines 8-14: pointer data, [const void * $(name);] *)

Definition XX_data_pointer (name : ident) : toplevel :=
  Var JL_DLLEXPORT const_void_ptr name None.

Definition data_pointers : list toplevel :=
  JL_EXPORTED_DATA_POINTERS XX_data_pointer
  ++ ifdef (_OS_WINDOWS_ b) (JL_EXPORTED_DATA_POINTERS_WIN XX_data_pointer).

(** *** Lines 16-22: symbol data, [$(type) $(name);] *)

Definition XX_data_symbol (name : ident) (type : string) : toplevel :=
  Var JL_DLLEXPORT (declared type) name None.

Definition data_symbols : list toplevel :=
  JL_EXPORTED_DATA_SYMBOLS XX_data_symbol
  ++ ifdef (_OS_WINDOWS_ b) (JL_EXPORTED_DATA_SYMBOLS_WIN XX_data_symbol).

(** *** Lines 24-26: the stack-protector guard *)

Definition stack_chk_guard : list toplevel :=
  ifndef (HAVE_SSP b) [Var JL_DLLEXPORT size_t "__stack_chk_guard" None].

(** *** Lines 28-38: exported functions (sans type) *)

Definition XX_func_decl (name : ident) : toplevel :=
  Proto JL_DLLEXPORT false name.

Definition func_decls : list toplevel :=
  [Typedef_anonfunc]
  ++ JL_RUNTIME_EXPORTED_FUNCS XX_func_decl
  ++ ifdef (_OS_WINDOWS_ b)
       (JL_RUNTIME_EXPORTED_FUNCS_WIN XX_func_decl
        ++ [Proto JL_DLLEXPORT true "__julia_personality"])
  ++ JL_CODEGEN_EXPORTED_FUNCS XX_func_decl.

(** *** Lines 40-48: holder locations, [$(name)_addr = & $(name);] *)

Definition XX_holder (name : ident) : toplevel :=
  Var JL_HIDDEN anonfunc_ptr (paste_addr name) (Some (addr_of name)).

Definition holders : list toplevel :=
  JL_RUNTIME_EXPORTED_FUNCS XX_holder
  ++ ifdef (_OS_WINDOWS_ b)
       (JL_RUNTIME_EXPORTED_FUNCS_WIN XX_holder
        ++ [Var JL_HIDDEN anonfunc_ptr "__julia_personality_addr" (Some NULL)])
  ++ JL_CODEGEN_EXPORTED_FUNCS XX_holder.

(** *** Lines 50-52: address slots filled in by someone else *)

Definition XX_addr_slot (name : ident) : toplevel :=
  Var JL_DLLEXPORT anonfunc_ptr (paste_addr name) None.

Definition addr_slots : list toplevel :=
  JL_RUNTIME_EXPORTED_FUNC_ADDRS XX_addr_slot.

(** *** Lines 54-71: lists of function names *)

Definition XX_name (name : ident) : option string :=
  Some (stringize name).

Definition jl_runtime_exported_func_names : list (option string) :=
  JL_RUNTIME_EXPORTED_FUNCS XX_name
  ++ ifdef (_OS_WINDOWS_ b)
       (JL_RUNTIME_EXPORTED_FUNCS_WIN XX_name
        ++ [Some "__julia_personality@16"])
  ++ JL_RUNTIME_EXPORTED_FUNC_ADDRS XX_name
  ++ [None].

Definition XX_name_impl (name : ident) : option string :=
  Some (stringize_impl name).

Definition jl_codegen_exported_func_names : list (option string) :=
  JL_CODEGEN_EXPORTED_FUNCS XX_name_impl
  ++ [None].

(** *** Lines 73-87: lists of function addresses *)

Definition XX_addr (name : ident) : option ident :=
  Some (paste_addr name).

Definition jl_runtime_exported_func_addrs : list (option ident) :=
  JL_RUNTIME_EXPORTED_FUNCS XX_addr
  ++ ifdef (_OS_WINDOWS_ b)
       (JL_RUNTIME_EXPORTED_FUNCS_WIN XX_addr
        ++ [Some "__julia_personality_addr"])
  ++ JL_RUNTIME_EXPORTED_FUNC_ADDRS XX_addr
  ++ [None].

Definition jl_codegen_exported_func_addrs : list (option ident) :=
  JL_CODEGEN_EXPORTED_FUNCS XX_addr
  ++ [None].

(** *** The whole header, in source order *)

Definition jl_exports : list toplevel :=
  data_pointers
  ++ data_symbols
  ++ stack_chk_guard
  ++ func_decls
  ++ holders
  ++ addr_slots
  ++ [NameTable "jl_runtime_exported_func_names" jl_runtime_exported_func_names;
      NameTable "jl_codegen_exported_func_names" jl_codegen_exported_func_names;
      AddrTable "jl_runtime_exported_func_addrs" jl_runtime_exported_func_addrs;
      AddrTable "jl_codegen_exported_func_addrs" jl_codegen_exported_func_addrs].

End Header.

(** ** Sample builds

    Two small builds over the same curated lists, one for each platform
    branch, with the stack-protector guard left to the header. *)

Definition sample_build (windows : bool) : build := {|
  _OS_WINDOWS_ := windows;
  HAVE_SSP := false;
  exported_data_pointers := ["jl_any_type"; "jl_nothing"];
  exported_data_pointers_win := ["jl_win_handle"];
  exported_data_symbols := [("jl_n_threads", "int"); ("jl_options", "jl_options_t")];
  exported_data_symbols_win := [("jl_crt_fd", "int")];
  runtime_exported_funcs := ["jl_init"; "jl_eval_string"; "jl_atexit_hook"];
  runtime_exported_funcs_win := ["jl_setjmp"];
  runtime_exported_func_addrs := ["jl_get_pgcstack"; "jl_pgcstack_key"];
  codegen_exported_funcs := ["jl_dump_function_ir"; "jl_get_llvmf_defn"]
|}.

Definition posix_build : build := sample_build false.
Definition windows_build : build := sample_build true.

(** A build whose toolchain supplies the stack-protector guard and whose
    data-symbol list re-exports it. *)
Definition ssp_build : build := {|
  _OS_WINDOWS_ := false;
  HAVE_SSP := true;
  exported_data_pointers := ["jl_any_type"];
  exported_data_pointers_win := [];
  exported_data_symbols := [("__stack_chk_guard", "uintptr_t")];
  exported_data_symbols_win := [];
  runtime_exported_funcs := ["jl_init"];
  runtime_exported_funcs_win := [];
  runtime_exported_func_addrs := [];
  codegen_exported_funcs := []
|}.

(** A build with nothing in the curated lists. *)
Definition empty_build (windows : bool) : build :=
  Build windows true [] [] [] [] [] [] [] [].

(** ** Vocabulary of the statements *)

(** A curated name of the runtime registry: a runtime-exported function, a
    Windows-only one when the platform is Windows, or an address slot. *)
Definition runtime_registered (b : build) (name : ident) : Prop :=
  name ∈ runtime_exported_funcs b
  ∨ (_OS_WINDOWS_ b = true ∧ name ∈ runtime_exported_funcs_win b)
  ∨ name ∈ runtime_exported_func_addrs b.

(** What it means for a public name and a slot of the runtime registry to
    belong together: both come from one curated name, or they are the
    special-cased personality pair of the Windows build. *)
Definition runtime_pair (b : build) (s : string) (slot : ident) : Prop :=
  (∃ name, runtime_registered b name
           ∧ s = stringize name ∧ slot = paste_addr name)
  ∨ (_OS_WINDOWS_ b = true
     ∧ s = "__julia_personality@16" ∧ slot = "__julia_personality_addr").

(** The same for the codegen registry. *)
Definition codegen_pair (b : build) (s : string) (slot : ident) : Prop :=
  ∃ name, name ∈ codegen_exported_funcs b
          ∧ s = stringize_impl name ∧ slot = paste_addr name.

(** Whether a string ends in the suffix the codegen names receive. *)
Fixpoint ends_with_impl (s : string) : bool :=
  match s with
  | EmptyString => false
  | String _ s' => bool_decide (s = "_impl") || ends_with_impl s'
  end.

(** An item that declares [name] with linkage [l]. *)
Definition declares (d : toplevel) (name : ident) (l : linkage) : Prop :=
  declared_name d = name ∧ declared_linkage d = Some l.

Global Instance declares_dec d name l : Decision (declares d name l).
Proof. unfold declares. apply _. Defined.

(** No identifier is introduced twice at file scope. *)
Definition well_formed (b : build) : Prop :=
  NoDup (declared_name <$> jl_exports b).

Global Instance well_formed_dec b : Decision (well_formed b).
Proof. unfold well_formed. apply _. Defined.

(** The number of entries the Windows branch contributes to the runtime
    tables: the Windows-only functions and the personality routine. *)
Definition windows_entries (b : build) : nat :=
  if _OS_WINDOWS_ b then length (runtime_exported_funcs_win b) + 1 else 0.

(** Linkage that keeps a symbol inside the library. *)
Definition internal (l : linkage) : Prop := l = JL_HIDDEN ∨ l = static.

Global Instance internal_dec l : Decision (internal l).
Proof. unfold internal. apply _. Defined.

(** Whether an item is defined with an initializer: a variable written
    with [= ...], or one of the tables, which are written [= { ... }]. *)
Definition initialized (d : toplevel) : bool :=
  match d with
  | Var _ _ _ (Some _) => true
  | Var _ _ _ None => false
  | Proto _ _ _ => false
  | Typedef_anonfunc => false
  | NameTable _ _ => true
  | AddrTable _ _ => true
  end.

(** The same build with the three Windows-only lists emptied. *)
Definition without_windows_lists (b : build) : build := {|
  _OS_WINDOWS_ := _OS_WINDOWS_ b;
  HAVE_SSP := HAVE_SSP b;
  exported_data_pointers := exported_data_pointers b;
  exported_data_pointers_win := [];
  exported_data_symbols := exported_data_symbols b;
  exported_data_symbols_win := [];
  runtime_exported_funcs := runtime_exported_funcs b;
  runtime_exported_funcs_win := [];
  runtime_exported_func_addrs := runtime_exported_func_addrs b;
  codegen_exported_funcs := codegen_exported_funcs b
|}.

(** The same build with [HAVE_SSP] defined or not. *)
Definition with_HAVE_SSP (flag : bool) (b : build) : build := {|
  _OS_WINDOWS_ := _OS_WINDOWS_ b;
  HAVE_SSP := flag;
  exported_data_pointers := exported_data_pointers b;
  exported_data_pointers_win := exported_data_pointers_win b;
  exported_data_symbols := exported_data_symbols b;
  exported_data_symbols_win := exported_data_symbols_win b;
  runtime_exported_funcs := runtime_exported_funcs b;
  runtime_exported_funcs_win := runtime_exported_funcs_win b;
  runtime_exported_func_addrs := runtime_exported_func_addrs b;
  codegen_exported_funcs := codegen_exported_funcs b
|}.

(** The names the header gives a prototype: the runtime-exported functions,
    on Windows the Windows-only ones and the personality routine, and the
    codegen-exported functions. *)
Definition function_names (b : build) : list ident :=
  runtime_exported_funcs b
  ++ ifdef (_OS_WINDOWS_ b)
       (runtime_exported_funcs_win b ++ ["__julia_personality"])
  ++ codegen_exported_funcs b.

(** The names the header declares as data. *)
Definition data_names (b : build) : list ident :=
  (exported_data_pointers b
   ++ ifdef (_OS_WINDOWS_ b) (exported_data_pointers_win b))
  ++ (exported_data_symbols b).*1
  ++ ifdef (_OS_WINDOWS_ b) (exported_data_symbols_win b).*1.

(** The names [name] for which the header declares a slot [name_addr]. *)
Definition slot_sources (b : build) : list ident :=
  function_names b ++ runtime_exported_func_addrs b.

(** The identifiers of the header that are not slots, in source order. *)
Definition plain_names (b : build) : list ident :=
  data_names b
  ++ ifndef (HAVE_SSP b) ["__stack_chk_guard"]
  ++ ["anonfunc"]
  ++ function_names b
  ++ ["jl_runtime_exported_func_names"; "jl_codegen_exported_func_names";
      "jl_runtime_exported_func_addrs"; "jl_codegen_exported_func_addrs"].

(** The curated names of the runtime registry with the personality literal
    in its place, and the names whose slots the runtime address table
    lists. *)
Definition runtime_public_names (b : build) : list string :=
  runtime_exported_funcs b
  ++ ifdef (_OS_WINDOWS_ b)
       (runtime_exported_funcs_win b ++ ["__julia_personality@16"])
  ++ runtime_exported_func_addrs b.

Definition runtime_slot_sources (b : build) : list ident :=
  runtime_exported_funcs b
  ++ ifdef (_OS_WINDOWS_ b)
       (runtime_exported_funcs_win b ++ ["__julia_personality"])
  ++ runtime_exported_func_addrs b.

(** Whether [s] ends in [suffix]. *)
Fixpoint has_suffix (suffix s : string) : bool :=
  bool_decide (s = suffix)
  || match s with
     | EmptyString => false
     | String _ s' => has_suffix suffix s'
     end.

(** Closes a decidable fact about a concrete build by evaluation. *)
Ltac by_evaluation := apply (bool_decide_unpack _); vm_compute; exact I.

(** ** Token-level facts *)

Lemma length_append (s t : string) :
  String.length (s +:+ t) = String.length s + String.length t.
Proof. induction s as [|c s IH]; simpl; [done | by rewrite IH]. Qed.

Lemma append_suffix_inj (t s1 s2 : string) : s1 +:+ t = s2 +:+ t → s1 = s2.
Proof.
  revert s2; induction s1 as [|c s1 IH]; intros [|c' s2] Heq.
  - done.
  - apply (f_equal String.length) in Heq.
    rewrite (length_append "" t), (length_append (String c' s2) t) in Heq.
    simpl in Heq; lia.
  - apply (f_equal String.length) in Heq.
    rewrite (length_append "" t), (length_append (String c s1) t) in Heq.
    simpl in Heq; lia.
  - change (String c (s1 +:+ t) = String c' (s2 +:+ t)) in Heq.
    injection Heq as -> Heq. f_equal. by apply IH.
Qed.

Lemma paste_addr_inj (n1 n2 : ident) : paste_addr n1 = paste_addr n2 → n1 = n2.
Proof. apply append_suffix_inj. Qed.

Lemma stringize_impl_inj (n1 n2 : ident) :
  stringize_impl n1 = stringize_impl n2 → n1 = n2.
Proof. apply append_suffix_inj. Qed.

Lemma stringize_impl_neq (name : ident) : stringize_impl name ≠ stringize name.
Proof.
  unfold stringize_impl, stringize; intros Heq.
  apply (f_equal String.length) in Heq.
  rewrite (length_append name "_impl") in Heq; simpl in Heq; lia.
Qed.

Lemma ends_with_impl_append (s : string) : ends_with_impl (s +:+ "_impl") = true.
Proof.
  induction s as [|c s IH]; [done|].
  change (String c s +:+ "_impl") with (String c (s +:+ "_impl")).
  cbn [ends_with_impl]. rewrite IH. apply orb_true_r.
Qed.

Lemma ifdef_true {A} (body : list A) : ifdef true body = body.
Proof. done. Qed.

Lemma elem_of_ifdef {A} (flag : bool) (body : list A) (x : A) :
  x ∈ ifdef flag body ↔ flag = true ∧ x ∈ body.
Proof.
  destruct flag; simpl; split.
  - by intros ?.
  - by intros [_ ?].
  - by intros ?%elem_of_nil.
  - by intros [? _].
Qed.

Lemma fmap_ifdef {A B} (f : A → B) (flag : bool) (body : list A) :
  f <$> ifdef flag body = ifdef flag (f <$> body).
Proof. by destruct flag. Qed.

Section Properties.
Variable b : build.

(** ** The sections of the header inside the whole *)

Lemma stack_chk_guard_in_header d : d ∈ stack_chk_guard b → d ∈ jl_exports b.
Proof. unfold jl_exports; rewrite !elem_of_app; tauto. Qed.

Lemma holders_in_header d : d ∈ holders b → d ∈ jl_exports b.
Proof. unfold jl_exports; rewrite !elem_of_app; tauto. Qed.

Lemma addr_slots_in_header d : d ∈ addr_slots b → d ∈ jl_exports b.
Proof. unfold jl_exports; rewrite !elem_of_app; tauto. Qed.

(** Every holder written by the macro of line 41 and the personality holder
    of line 45: what [holders] consists of. *)
Lemma elem_of_holders d :
  d ∈ holders b ↔
    (∃ name, d = XX_holder name
             ∧ (name ∈ runtime_exported_funcs b
                ∨ (_OS_WINDOWS_ b = true ∧ name ∈ runtime_exported_funcs_win b)
                ∨ name ∈ codegen_exported_funcs b))
    ∨ (_OS_WINDOWS_ b = true
       ∧ d = Var JL_HIDDEN anonfunc_ptr "__julia_personality_addr" (Some NULL)).
Proof.
  unfold holders, JL_RUNTIME_EXPORTED_FUNCS, JL_RUNTIME_EXPORTED_FUNCS_WIN,
    JL_CODEGEN_EXPORTED_FUNCS.
  rewrite !elem_of_app, elem_of_ifdef, elem_of_app, !list_elem_of_fmap,
    list_elem_of_singleton.
  split.
  - intros [(name & -> & H) | [(Hw & [(name & -> & H) | ->]) | (name & -> & H)]].
    + left; exists name; tauto.
    + left; exists name; tauto.
    + right; tauto.
    + left; exists name; tauto.
  - intros [(name & -> & [H | [[Hw H] | H]]) | [Hw ->]].
    + left; by exists name.
    + right; left; split; [done|]. left; by exists name.
    + right; right; by exists name.
    + right; left; split; [done|]. by right.
Qed.

(** ** The layout of the four tables *)

Lemma runtime_names_layout :
  jl_runtime_exported_func_names b =
    (Some <$> (stringize <$> runtime_exported_funcs b)
              ++ ifdef (_OS_WINDOWS_ b)
                   ((stringize <$> runtime_exported_funcs_win b)
                    ++ ["__julia_personality@16"])
              ++ (stringize <$> runtime_exported_func_addrs b))
    ++ [None].
Proof.
  unfold jl_runtime_exported_func_names, JL_RUNTIME_EXPORTED_FUNCS,
    JL_RUNTIME_EXPORTED_FUNCS_WIN, JL_RUNTIME_EXPORTED_FUNC_ADDRS, XX_name.
  rewrite !fmap_app, fmap_ifdef, fmap_app, <- !list_fmap_compose, <- !(assoc_L (++)).
  done.
Qed.

Lemma runtime_addrs_layout :
  jl_runtime_exported_func_addrs b =
    (Some <$> (paste_addr <$> runtime_exported_funcs b)
              ++ ifdef (_OS_WINDOWS_ b)
                   ((paste_addr <$> runtime_exported_funcs_win b)
                    ++ ["__julia_personality_addr"])
              ++ (paste_addr <$> runtime_exported_func_addrs b))
    ++ [None].
Proof.
  unfold jl_runtime_exported_func_addrs, JL_RUNTIME_EXPORTED_FUNCS,
    JL_RUNTIME_EXPORTED_FUNCS_WIN, JL_RUNTIME_EXPORTED_FUNC_ADDRS, XX_addr.
  rewrite !fmap_app, fmap_ifdef, fmap_app, <- !list_fmap_compose, <- !(assoc_L (++)).
  done.
Qed.

Lemma codegen_names_layout :
  jl_codegen_exported_func_names b =
    (Some <$> (stringize_impl <$> codegen_exported_funcs b)) ++ [None].
Proof.
  unfold jl_codegen_exported_func_names, JL_CODEGEN_EXPORTED_FUNCS, XX_name_impl.
  by rewrite <- list_fmap_compose.
Qed.

Lemma codegen_addrs_layout :
  jl_codegen_exported_func_addrs b =
    (Some <$> (paste_addr <$> codegen_exported_funcs b)) ++ [None].
Proof.
  unfold jl_codegen_exported_func_addrs, JL_CODEGEN_EXPORTED_FUNCS, XX_addr.
  by rewrite <- list_fmap_compose.
Qed.

(** ** Reading a table by index *)

Lemma lookup_entry {A} (l : list A) (i : nat) (x : A) :
  l !! i = Some x → ((Some <$> l) ++ [None]) !! i = Some (Some x).
Proof.
  intros Hi. rewrite lookup_app_l.
  - by rewrite list_lookup_fmap, Hi.
  - rewrite length_fmap. by eapply lookup_lt_Some.
Qed.

Lemma lookup_sentinel {A} (l : list A) :
  ((Some <$> l) ++ [None]) !! length l = Some None.
Proof. apply list_lookup_middle. by rewrite length_fmap. Qed.

Lemma length_table {A B} (l : list A) (k : list B) :
  length l = length k →
  length ((Some <$> l) ++ [None]) = length ((Some <$> k) ++ [None]).
Proof. intros Hlen. by rewrite !length_app, !length_fmap, Hlen. Qed.

Lemma lookup_third {A} (l1 l2 l3 : list A) (j : nat) (x : A) :
  l3 !! j = Some x → (l1 ++ l2 ++ l3) !! (length l1 + length l2 + j) = Some x.
Proof.
  intros Hj.
  rewrite lookup_app_r by lia. rewrite lookup_app_r by lia.
  rewrite <- Hj. f_equal. lia.
Qed.

Lemma Forall2_fmap_same {A B C} (R : B → C → Prop) (f : A → B) (g : A → C)
    (l : list A) :
  (∀ x, x ∈ l → R (f x) (g x)) → Forall2 R (f <$> l) (g <$> l).
Proof.
  intros HR. apply Forall2_fmap, Forall_Forall2_diag, Forall_forall. exact HR.
Qed.

Lemma NoDup_fmap_elem_inj {A B} (f : A → B) (l : list A) (x y : A) :
  NoDup (f <$> l) → x ∈ l → y ∈ l → f x = f y → x = y.
Proof.
  induction l as [|a l IH]; intros Hnd Hx Hy Heq.
  - by apply elem_of_nil in Hx.
  - rewrite fmap_cons in Hnd. apply NoDup_cons in Hnd as [Hnot Hnd].
    apply elem_of_cons in Hx as [-> | Hx]; apply elem_of_cons in Hy as [-> | Hy].
    + done.
    + exfalso; apply Hnot. rewrite Heq. by apply list_elem_of_fmap_2.
    + exfalso; apply Hnot. rewrite <- Heq. by apply list_elem_of_fmap_2.
    + by apply IH.
Qed.

(** A holder whose slot is [name_addr] and whose initializer is the address
    of a function can only point at [name]. *)
Lemma holder_target_unique (name target : ident) (l : linkage) (ty : ctype) :
  Var l ty (paste_addr name) (Some (addr_of target)) ∈ holders b →
  target = name.
Proof.
  intros [(g & Heq & _) | [_ Heq]]%elem_of_holders.
  - unfold XX_holder in Heq. injection Heq as _ _ Hslot Htarget.
    apply paste_addr_inj in Hslot. congruence.
  - discriminate Heq.
Qed.

Lemma holder_in_header (name : ident) :
  name ∈ runtime_exported_funcs b
  ∨ (_OS_WINDOWS_ b = true ∧ name ∈ runtime_exported_funcs_win b)
  ∨ name ∈ codegen_exported_funcs b →
  Var JL_HIDDEN anonfunc_ptr (paste_addr name) (Some (addr_of name)) ∈ jl_exports b.
Proof.
  intros Hname. apply holders_in_header, elem_of_holders.
  left. by exists name.
Qed.

(** The personality pair sits right after the Windows-only functions. *)
Lemma personality_name_entry :
  _OS_WINDOWS_ b = true →
  jl_runtime_exported_func_names b
    !! (length (runtime_exported_funcs b) + length (runtime_exported_funcs_win b))
  = Some (Some "__julia_personality@16").
Proof.
  intros Hw. rewrite runtime_names_layout, Hw, ifdef_true.
  apply lookup_entry.
  rewrite lookup_app_r by (rewrite length_fmap; lia).
  rewrite length_fmap.
  rewrite lookup_app_l by (rewrite length_app, length_fmap; simpl; lia).
  apply list_lookup_middle. rewrite length_fmap. lia.
Qed.

Lemma personality_addr_entry :
  _OS_WINDOWS_ b = true →
  jl_runtime_exported_func_addrs b
    !! (length (runtime_exported_funcs b) + length (runtime_exported_funcs_win b))
  = Some (Some "__julia_personality_addr").
Proof.
  intros Hw. rewrite runtime_addrs_layout, Hw, ifdef_true.
  apply lookup_entry.
  rewrite lookup_app_r by (rewrite length_fmap; lia).
  rewrite length_fmap.
  rewrite lookup_app_l by (rewrite length_app, length_fmap; simpl; lia).
  apply list_lookup_middle. rewrite length_fmap. lia.
Qed.

(** ** Properties of the expanded header *)

(** C1.  For every name of the runtime-exported-function list (and, on a
    Windows build, of its Windows extension) the header defines the hidden
    slot [name_addr] with the initializer [(anonfunc* )&name]: the slot's
    initial target is the address of the function of the same name, and no
    holder of that slot points at any other function. *)
Theorem runtime_holder_initial_target (name : ident) :
  name ∈ runtime_exported_funcs b
  ∨ (_OS_WINDOWS_ b = true ∧ name ∈ runtime_exported_funcs_win b) →
  Var JL_HIDDEN anonfunc_ptr (paste_addr name) (Some (addr_of name)) ∈ jl_exports b
  ∧ ∀ l ty target,
      Var l ty (paste_addr name) (Some (addr_of target)) ∈ holders b →
      target = name.
Proof.
  intros Hname. split.
  - apply holder_in_header. tauto.
  - intros l ty target. apply holder_target_unique.
Qed.

(** C2.  In both registries the name table and the address table are a run
    of non-null entries followed by the null sentinel; the two runs have the
    same length, entry [i] of the names and entry [i] of the addresses come
    from the same curated symbol, and the sentinel is the last element of
    each table. *)
Theorem registries_parallel :
  (∃ (ns : list string) (slots : list ident),
      jl_runtime_exported_func_names b = (Some <$> ns) ++ [None]
      ∧ jl_runtime_exported_func_addrs b = (Some <$> slots) ++ [None]
      ∧ length ns = length slots
      ∧ Forall2 (runtime_pair b) ns slots)
  ∧ (∃ (ns : list string) (slots : list ident),
      jl_codegen_exported_func_names b = (Some <$> ns) ++ [None]
      ∧ jl_codegen_exported_func_addrs b = (Some <$> slots) ++ [None]
      ∧ length ns = length slots
      ∧ Forall2 (codegen_pair b) ns slots)
  ∧ length (jl_runtime_exported_func_names b)
    = length (jl_runtime_exported_func_addrs b)
  ∧ length (jl_codegen_exported_func_names b)
    = length (jl_codegen_exported_func_addrs b)
  ∧ last (jl_runtime_exported_func_names b) = Some None
  ∧ last (jl_runtime_exported_func_addrs b) = Some None
  ∧ last (jl_codegen_exported_func_names b) = Some None
  ∧ last (jl_codegen_exported_func_addrs b) = Some None.
Proof.
  assert (Hrt : Forall2 (runtime_pair b)
            ((stringize <$> runtime_exported_funcs b)
             ++ ifdef (_OS_WINDOWS_ b)
                  ((stringize <$> runtime_exported_funcs_win b)
                   ++ ["__julia_personality@16"])
             ++ (stringize <$> runtime_exported_func_addrs b))
            ((paste_addr <$> runtime_exported_funcs b)
             ++ ifdef (_OS_WINDOWS_ b)
                  ((paste_addr <$> runtime_exported_funcs_win b)
                   ++ ["__julia_personality_addr"])
             ++ (paste_addr <$> runtime_exported_func_addrs b))).
  { repeat apply Forall2_app.
    - apply Forall2_fmap_same. intros name Hin.
      left; exists name. unfold runtime_registered. tauto.
    - destruct (_OS_WINDOWS_ b) eqn:Hw; simpl; [|constructor].
      apply Forall2_app.
      + apply Forall2_fmap_same. intros name Hin.
        left; exists name. unfold runtime_registered. tauto.
      + constructor; [|constructor]. right. by rewrite Hw.
    - apply Forall2_fmap_same. intros name Hin.
      left; exists name. unfold runtime_registered. tauto. }
  assert (Hcg : Forall2 (codegen_pair b)
            (stringize_impl <$> codegen_exported_funcs b)
            (paste_addr <$> codegen_exported_funcs b)).
  { apply Forall2_fmap_same. intros name Hin. by exists name. }
  rewrite runtime_names_layout, runtime_addrs_layout,
    codegen_names_layout, codegen_addrs_layout.
  pose proof (Forall2_length _ _ _ Hrt) as Hlen_rt.
  pose proof (Forall2_length _ _ _ Hcg) as Hlen_cg.
  split_and!.
  - eexists _, _. split_and!; [done | done | exact Hlen_rt | exact Hrt].
  - eexists _, _. split_and!; [done | done | exact Hlen_cg | exact Hcg].
  - by apply length_table.
  - by apply length_table.
  - apply last_snoc.
  - apply last_snoc.
  - apply last_snoc.
  - apply last_snoc.
Qed.

(** C3.  Each table lists its curated names in declaration order: the
    primary list first, on a Windows build the Windows list (and the
    personality entry) concatenated after it, then the address slots, then
    the sentinel.  Nothing is reordered. *)
Theorem registry_order :
  jl_runtime_exported_func_names b =
    (if _OS_WINDOWS_ b
     then Some <$> (stringize <$> runtime_exported_funcs b)
                   ++ (stringize <$> runtime_exported_funcs_win b)
                   ++ ["__julia_personality@16"]
                   ++ (stringize <$> runtime_exported_func_addrs b)
     else Some <$> (stringize <$> runtime_exported_funcs b)
                   ++ (stringize <$> runtime_exported_func_addrs b))
    ++ [None]
  ∧ jl_runtime_exported_func_addrs b =
    (if _OS_WINDOWS_ b
     then Some <$> (paste_addr <$> runtime_exported_funcs b)
                   ++ (paste_addr <$> runtime_exported_funcs_win b)
                   ++ ["__julia_personality_addr"]
                   ++ (paste_addr <$> runtime_exported_func_addrs b)
     else Some <$> (paste_addr <$> runtime_exported_funcs b)
                   ++ (paste_addr <$> runtime_exported_func_addrs b))
    ++ [None]
  ∧ jl_codegen_exported_func_names b =
    (Some <$> (stringize_impl <$> codegen_exported_funcs b)) ++ [None]
  ∧ jl_codegen_exported_func_addrs b =
    (Some <$> (paste_addr <$> codegen_exported_funcs b)) ++ [None].
Proof.
  rewrite runtime_names_layout, runtime_addrs_layout.
  split_and!.
  - destruct (_OS_WINDOWS_ b); simpl; [|done].
    by rewrite <- !(assoc_L (++)).
  - destruct (_OS_WINDOWS_ b); simpl; [|done].
    by rewrite <- !(assoc_L (++)).
  - apply codegen_names_layout.
  - apply codegen_addrs_layout.
Qed.

(** C4.  Every entry of the codegen name table is the curated name with
    ["_impl"] appended, entry by entry; every entry of the runtime name table
    is a curated name spelled verbatim (a runtime-exported function, a
    Windows-only one, an address slot) or the personality literal, which does
    not carry the suffix.  Conversely every name of those categories does
    appear in the runtime name table, verbatim, and on Windows so does the
    personality literal. *)
Theorem impl_suffix_only_on_codegen_names :
  (∀ i name, codegen_exported_funcs b !! i = Some name →
     jl_codegen_exported_func_names b !! i = Some (Some (name +:+ "_impl")))
  ∧ (∀ s, Some s ∈ jl_codegen_exported_func_names b →
       ends_with_impl s = true
       ∧ ∃ name, name ∈ codegen_exported_funcs b ∧ s = name +:+ "_impl")
  ∧ (∀ s, Some s ∈ jl_runtime_exported_func_names b →
       (∃ name, runtime_registered b name ∧ s = name)
       ∨ (_OS_WINDOWS_ b = true ∧ s = "__julia_personality@16"
          ∧ ends_with_impl s = false))
  ∧ (∀ name, runtime_registered b name →
       Some name ∈ jl_runtime_exported_func_names b)
  ∧ (_OS_WINDOWS_ b = true →
       Some "__julia_personality@16" ∈ jl_runtime_exported_func_names b).
Proof.
  split_and!.
  - intros i name Hi. rewrite codegen_names_layout.
    apply lookup_entry. by rewrite list_lookup_fmap, Hi.
  - intros s. rewrite codegen_names_layout, elem_of_app, list_elem_of_singleton.
    intros [Hin | ?]; [|done].
    apply list_elem_of_fmap in Hin as (s' & [= <-] & Hin).
    apply list_elem_of_fmap in Hin as (name & -> & Hin).
    split; [apply ends_with_impl_append | by exists name].
  - intros s. rewrite runtime_names_layout, elem_of_app, list_elem_of_singleton.
    intros [Hin | ?]; [|done].
    apply list_elem_of_fmap in Hin as (s' & [= <-] & Hin).
    unfold runtime_registered.
    rewrite !elem_of_app, elem_of_ifdef, elem_of_app, !list_elem_of_fmap,
      list_elem_of_singleton in Hin.
    destruct Hin as [(name & -> & H) | [(Hw & [(name & -> & H) | ->])
                                       | (name & -> & H)]].
    + left; exists name; unfold stringize; tauto.
    + left; exists name; unfold stringize; tauto.
    + right. by rewrite Hw.
    + left; exists name; unfold stringize; tauto.
  - intros name Hreg. rewrite runtime_names_layout.
    apply elem_of_app; left. apply (list_elem_of_fmap_2 Some).
    rewrite !elem_of_app, elem_of_ifdef, elem_of_app.
    destruct Hreg as [H | [[Hw H] | H]];
      apply (list_elem_of_fmap_2 stringize) in H;
      change (stringize name) with name in H; tauto.
  - intros Hw. rewrite runtime_names_layout.
    apply elem_of_app; left. apply (list_elem_of_fmap_2 Some).
    rewrite !elem_of_app, elem_of_ifdef, elem_of_app, list_elem_of_singleton.
    tauto.
Qed.

(** C5, as the header has it.  When [HAVE_SSP] is not defined the header
    defines the fallback guard [size_t __stack_chk_guard] under
    [JL_DLLEXPORT], without an initializer; when it is defined the header
    emits nothing for the guard. *)
Theorem stack_chk_guard_fallback_exported :
  HAVE_SSP b = false →
  stack_chk_guard b = [Var JL_DLLEXPORT size_t "__stack_chk_guard" None]
  ∧ Var JL_DLLEXPORT size_t "__stack_chk_guard" None ∈ jl_exports b
  ∧ ∀ d, d ∈ stack_chk_guard b → declares d "__stack_chk_guard" JL_DLLEXPORT.
Proof.
  intros Hssp.
  assert (Hguard : stack_chk_guard b
                   = [Var JL_DLLEXPORT size_t "__stack_chk_guard" None])
    by (unfold stack_chk_guard; by rewrite Hssp).
  split_and!.
  - exact Hguard.
  - apply stack_chk_guard_in_header. rewrite Hguard. apply list_elem_of_here.
  - intros d. rewrite Hguard, list_elem_of_singleton. by intros ->.
Qed.

(** C6, as the header has it.  For every runtime-exported function [F] the
    slot [F_addr] is defined [JL_HIDDEN] with the mutable type [anonfunc *];
    in a header that declares no identifier twice, nothing declares [F_addr]
    under any other linkage, so the slot is not an exported symbol.  What is
    handed out is the slot's address [&F_addr], as an entry of the static
    table [jl_runtime_exported_func_addrs]. *)
Theorem runtime_holder_hidden (name : ident) :
  well_formed b →
  name ∈ runtime_exported_funcs b →
  Var JL_HIDDEN anonfunc_ptr (paste_addr name) (Some (addr_of name)) ∈ jl_exports b
  ∧ (∀ d, d ∈ jl_exports b → declared_name d = paste_addr name →
       declared_linkage d = Some JL_HIDDEN)
  ∧ Some (paste_addr name) ∈ jl_runtime_exported_func_addrs b
  ∧ ∃ d, d ∈ jl_exports b
         ∧ d = AddrTable "jl_runtime_exported_func_addrs"
                 (jl_runtime_exported_func_addrs b)
         ∧ declared_linkage d = Some static.
Proof.
  intros Hwf Hname.
  assert (Hholder : Var JL_HIDDEN anonfunc_ptr (paste_addr name)
                      (Some (addr_of name)) ∈ jl_exports b)
    by (apply holder_in_header; tauto).
  split_and!.
  - exact Hholder.
  - intros d Hd Hdname.
    assert (d = Var JL_HIDDEN anonfunc_ptr (paste_addr name) (Some (addr_of name)))
      as -> by (by apply (NoDup_fmap_elem_inj declared_name (jl_exports b))).
    done.
  - unfold jl_runtime_exported_func_addrs, JL_RUNTIME_EXPORTED_FUNCS.
    apply elem_of_app; left. apply list_elem_of_fmap. by exists name.
  - eexists. split; [|split; [reflexivity | done]].
    unfold jl_exports. rewrite !elem_of_app. do 6 right.
    apply list_elem_of_further, list_elem_of_further, list_elem_of_here.
Qed.

(** C7.  For every name of the address-slot list the header declares the
    slot [name_addr] under [JL_DLLEXPORT] with no initializer, and every
    item of that part of the header has this shape. *)
Theorem addr_slot_exported_uninitialized (name : ident) :
  name ∈ runtime_exported_func_addrs b →
  Var JL_DLLEXPORT anonfunc_ptr (paste_addr name) None ∈ jl_exports b
  ∧ ∀ d, d ∈ addr_slots b →
      ∃ n, n ∈ runtime_exported_func_addrs b
           ∧ d = Var JL_DLLEXPORT anonfunc_ptr (paste_addr n) None.
Proof.
  intros Hname. split.
  - apply addr_slots_in_header.
    unfold addr_slots, JL_RUNTIME_EXPORTED_FUNC_ADDRS.
    apply list_elem_of_fmap. by exists name.
  - intros d. unfold addr_slots, JL_RUNTIME_EXPORTED_FUNC_ADDRS.
    intros (n & -> & Hn)%list_elem_of_fmap. by exists n.
Qed.

(** C8.  On a Windows build the personality routine's slot is defined with
    the explicit initializer [NULL], and its entry in the runtime name table,
    right after the Windows-only functions, is the literal
    ["__julia_personality@16"], which is not the stringized identifier; the
    address table has the slot's address at the same index. *)
Theorem personality_special_case :
  _OS_WINDOWS_ b = true →
  Var JL_HIDDEN anonfunc_ptr "__julia_personality_addr" (Some NULL) ∈ jl_exports b
  ∧ jl_runtime_exported_func_names b
      !! (length (runtime_exported_funcs b)
          + length (runtime_exported_funcs_win b))
    = Some (Some "__julia_personality@16")
  ∧ jl_runtime_exported_func_addrs b
      !! (length (runtime_exported_funcs b)
          + length (runtime_exported_funcs_win b))
    = Some (Some "__julia_personality_addr")
  ∧ "__julia_personality@16" ≠ stringize "__julia_personality".
Proof.
  intros Hw. split_and!.
  - apply holders_in_header, elem_of_holders. by right.
  - by apply personality_name_entry.
  - by apply personality_addr_entry.
  - done.
Qed.

(** C9.  Every codegen-exported function [name] gets the hidden slot
    [name_addr] initialized to [&name], the unsuffixed symbol; the codegen
    address table is parallel to the codegen name table and both end in the
    null sentinel, so the entry ["name_impl"] sits at the index of
    [&name_addr], a slot whose initial target is [name] and not
    [name_impl]. *)
Theorem codegen_holder_and_registry (i : nat) (name : ident) :
  codegen_exported_funcs b !! i = Some name →
  Var JL_HIDDEN anonfunc_ptr (paste_addr name) (Some (addr_of name)) ∈ jl_exports b
  ∧ jl_codegen_exported_func_names b !! i = Some (Some (name +:+ "_impl"))
  ∧ jl_codegen_exported_func_addrs b !! i = Some (Some (paste_addr name))
  ∧ (∀ l ty target,
       Var l ty (paste_addr name) (Some (addr_of target)) ∈ holders b →
       target = name ∧ target ≠ name +:+ "_impl")
  ∧ length (jl_codegen_exported_func_names b)
    = length (jl_codegen_exported_func_addrs b)
  ∧ last (jl_codegen_exported_func_names b) = Some None
  ∧ last (jl_codegen_exported_func_addrs b) = Some None.
Proof.
  intros Hi.
  assert (Hname : name ∈ codegen_exported_funcs b)
    by (apply list_elem_of_lookup; by exists i).
  split_and!.
  - apply holder_in_header. tauto.
  - rewrite codegen_names_layout. apply lookup_entry.
    by rewrite list_lookup_fmap, Hi.
  - rewrite codegen_addrs_layout. apply lookup_entry.
    by rewrite list_lookup_fmap, Hi.
  - intros l ty target Hin. apply holder_target_unique in Hin as ->.
    split; [done|]. intros Heq. by apply (stringize_impl_neq name).
  - rewrite codegen_names_layout, codegen_addrs_layout.
    apply length_table. by rewrite !length_fmap.
  - rewrite codegen_names_layout. apply last_snoc.
  - rewrite codegen_addrs_layout. apply last_snoc.
Qed.

(** C10.  On every platform the address-slot names and slot addresses are
    entries of the runtime registry: entry [j] of the address-slot list sits
    [j] places after the runtime-exported functions and whatever the Windows
    branch contributed (on Windows, after the personality entry that closes
    that branch), in both tables, and before the null sentinel, which is the
    last element. *)
Theorem addr_slots_registered_on_every_platform (j : nat) (name : ident) :
  runtime_exported_func_addrs b !! j = Some name →
  jl_runtime_exported_func_names b
    !! (length (runtime_exported_funcs b) + windows_entries b + j)
  = Some (Some (stringize name))
  ∧ jl_runtime_exported_func_addrs b
      !! (length (runtime_exported_funcs b) + windows_entries b + j)
    = Some (Some (paste_addr name))
  ∧ length (runtime_exported_funcs b) + windows_entries b + j
    < length (runtime_exported_funcs b) + windows_entries b
      + length (runtime_exported_func_addrs b)
  ∧ jl_runtime_exported_func_names b
      !! (length (runtime_exported_funcs b) + windows_entries b
          + length (runtime_exported_func_addrs b))
    = Some None
  ∧ jl_runtime_exported_func_addrs b
      !! (length (runtime_exported_funcs b) + windows_entries b
          + length (runtime_exported_func_addrs b))
    = Some None
  ∧ length (jl_runtime_exported_func_names b)
    = length (runtime_exported_funcs b) + windows_entries b
      + length (runtime_exported_func_addrs b) + 1
  ∧ (_OS_WINDOWS_ b = true →
     jl_runtime_exported_func_names b
       !! (length (runtime_exported_funcs b)
           + length (runtime_exported_funcs_win b))
     = Some (Some "__julia_personality@16")
     ∧ length (runtime_exported_funcs b) + length (runtime_exported_funcs_win b)
       < length (runtime_exported_funcs b) + windows_entries b + j)
  ∧ (_OS_WINDOWS_ b = false → windows_entries b = 0).
Proof.
  intros Hj.
  assert (Hwin : ∀ (f : ident → string) (x : string),
             length (ifdef (_OS_WINDOWS_ b)
                       ((f <$> runtime_exported_funcs_win b) ++ [x]))
             = windows_entries b).
  { intros f x. unfold windows_entries.
    destruct (_OS_WINDOWS_ b); simpl; [|done].
    by rewrite length_app, length_fmap. }
  assert (Hlen : ∀ (f : ident → string) (x : string),
             length ((f <$> runtime_exported_funcs b)
                     ++ ifdef (_OS_WINDOWS_ b)
                          ((f <$> runtime_exported_funcs_win b) ++ [x])
                     ++ (f <$> runtime_exported_func_addrs b))
             = length (runtime_exported_funcs b) + windows_entries b
               + length (runtime_exported_func_addrs b)).
  { intros f x. rewrite !length_app, Hwin, !length_fmap. lia. }
  assert (Hat : ∀ (f : ident → string) (x : string),
             ((f <$> runtime_exported_funcs b)
              ++ ifdef (_OS_WINDOWS_ b)
                   ((f <$> runtime_exported_funcs_win b) ++ [x])
              ++ (f <$> runtime_exported_func_addrs b))
             !! (length (runtime_exported_funcs b) + windows_entries b + j)
             = Some (f name)).
  { intros f x.
    rewrite <- (Hwin f x), <- (length_fmap f (runtime_exported_funcs b)).
    apply lookup_third. by rewrite list_lookup_fmap, Hj. }
  rewrite runtime_names_layout, runtime_addrs_layout.
  split_and!.
  - apply lookup_entry, Hat.
  - apply lookup_entry, Hat.
  - apply lookup_lt_Some in Hj. lia.
  - rewrite <- (Hlen stringize "__julia_personality@16"). apply lookup_sentinel.
  - rewrite <- (Hlen paste_addr "__julia_personality_addr"). apply lookup_sentinel.
  - rewrite length_app, length_fmap, Hlen. done.
  - intros Hw. split.
    + rewrite <- runtime_names_layout. by apply personality_name_entry.
    + unfold windows_entries. rewrite Hw. lia.
  - intros Hw. unfold windows_entries. by rewrite Hw.
Qed.

End Properties.

(** ** The properties on the sample builds *)

Example windows_runtime_names :
  jl_runtime_exported_func_names windows_build =
    [Some "jl_init"; Some "jl_eval_string"; Some "jl_atexit_hook";
     Some "jl_setjmp"; Some "__julia_personality@16";
     Some "jl_get_pgcstack"; Some "jl_pgcstack_key"; None].
Proof. reflexivity. Qed.

Example windows_runtime_addrs :
  jl_runtime_exported_func_addrs windows_build =
    [Some "jl_init_addr"; Some "jl_eval_string_addr"; Some "jl_atexit_hook_addr";
     Some "jl_setjmp_addr"; Some "__julia_personality_addr";
     Some "jl_get_pgcstack_addr"; Some "jl_pgcstack_key_addr"; None].
Proof. reflexivity. Qed.

Example posix_runtime_names :
  jl_runtime_exported_func_names posix_build =
    [Some "jl_init"; Some "jl_eval_string"; Some "jl_atexit_hook";
     Some "jl_get_pgcstack"; Some "jl_pgcstack_key"; None].
Proof. reflexivity. Qed.

Example posix_codegen_tables :
  jl_codegen_exported_func_names posix_build =
    [Some "jl_dump_function_ir_impl"; Some "jl_get_llvmf_defn_impl"; None]
  ∧ jl_codegen_exported_func_addrs posix_build =
    [Some "jl_dump_function_ir_addr"; Some "jl_get_llvmf_defn_addr"; None].
Proof. split; reflexivity. Qed.

Example posix_holders :
  holders posix_build =
    [Var JL_HIDDEN anonfunc_ptr "jl_init_addr" (Some (addr_of "jl_init"));
     Var JL_HIDDEN anonfunc_ptr "jl_eval_string_addr" (Some (addr_of "jl_eval_string"));
     Var JL_HIDDEN anonfunc_ptr "jl_atexit_hook_addr" (Some (addr_of "jl_atexit_hook"));
     Var JL_HIDDEN anonfunc_ptr "jl_dump_function_ir_addr"
       (Some (addr_of "jl_dump_function_ir"));
     Var JL_HIDDEN anonfunc_ptr "jl_get_llvmf_defn_addr"
       (Some (addr_of "jl_get_llvmf_defn"))].
Proof. reflexivity. Qed.


Lemma runtime_holder_initial_target_witness :
  ("jl_setjmp" ∈ runtime_exported_funcs windows_build
   ∨ (_OS_WINDOWS_ windows_build = true
      ∧ "jl_setjmp" ∈ runtime_exported_funcs_win windows_build))
  ∧ Var JL_HIDDEN anonfunc_ptr "jl_setjmp_addr" (Some (addr_of "jl_setjmp"))
      ∈ jl_exports windows_build.
Proof.
  assert (H : "jl_setjmp" ∈ runtime_exported_funcs windows_build
              ∨ (_OS_WINDOWS_ windows_build = true
                 ∧ "jl_setjmp" ∈ runtime_exported_funcs_win windows_build)).
  { right. split; [reflexivity | by_evaluation]. }
  split; [exact H|].
  exact (proj1 (runtime_holder_initial_target windows_build "jl_setjmp" H)).
Defined.

Lemma impl_suffix_only_on_codegen_names_witness :
  codegen_exported_funcs windows_build !! 1 = Some "jl_get_llvmf_defn"
  ∧ jl_codegen_exported_func_names windows_build !! 1
    = Some (Some "jl_get_llvmf_defn_impl")
  ∧ runtime_registered windows_build "jl_eval_string"
  ∧ Some "jl_eval_string" ∈ jl_runtime_exported_func_names windows_build
  ∧ runtime_registered windows_build "jl_setjmp"
  ∧ Some "jl_setjmp" ∈ jl_runtime_exported_func_names windows_build
  ∧ runtime_registered windows_build "jl_pgcstack_key"
  ∧ Some "jl_pgcstack_key" ∈ jl_runtime_exported_func_names windows_build
  ∧ _OS_WINDOWS_ windows_build = true
  ∧ Some "__julia_personality@16" ∈ jl_runtime_exported_func_names windows_build.
Proof.
  pose proof (impl_suffix_only_on_codegen_names windows_build)
    as (Hcodegen & _ & _ & Hruntime & Hpersonality).
  assert (Hfunc : runtime_registered windows_build "jl_eval_string")
    by (left; by_evaluation).
  assert (Hwin : runtime_registered windows_build "jl_setjmp")
    by (right; left; split; [reflexivity | by_evaluation]).
  assert (Hslot : runtime_registered windows_build "jl_pgcstack_key")
    by (right; right; by_evaluation).
  split; [reflexivity|].
  split; [exact (Hcodegen 1 "jl_get_llvmf_defn" eq_refl)|].
  split; [exact Hfunc|].
  split; [exact (Hruntime "jl_eval_string" Hfunc)|].
  split; [exact Hwin|].
  split; [exact (Hruntime "jl_setjmp" Hwin)|].
  split; [exact Hslot|].
  split; [exact (Hruntime "jl_pgcstack_key" Hslot)|].
  split; [reflexivity|].
  exact (Hpersonality eq_refl).
Defined.

(** C5 with internal visibility does not hold: with [HAVE_SSP] undefined
    the guard is there, under [JL_DLLEXPORT], and nothing declares it with a
    linkage that keeps it inside the library. *)
Lemma stack_chk_guard_internal_counterexample :
  HAVE_SSP posix_build = false
  ∧ Var JL_DLLEXPORT size_t "__stack_chk_guard" None ∈ jl_exports posix_build
  ∧ ¬ ∃ d l, d ∈ jl_exports posix_build
             ∧ declares d "__stack_chk_guard" l ∧ internal l.
Proof.
  split_and!.
  - reflexivity.
  - by_evaluation.
  - intros (d & l & Hin & Hd & Hl).
    assert (Hall : Forall (λ d, ∀ l, declares d "__stack_chk_guard" l → ¬ internal l)
                     (jl_exports posix_build)).
    { vm_compute. repeat constructor;
        intros l' [Hn Hl'] Hint; try discriminate Hn;
        injection Hl' as <-; destruct Hint; discriminate. }
    rewrite Forall_forall in Hall. by apply (Hall d Hin l).
Qed.

Lemma stack_chk_guard_fallback_exported_witness :
  HAVE_SSP posix_build = false
  ∧ Var JL_DLLEXPORT size_t "__stack_chk_guard" None ∈ jl_exports posix_build.
Proof.
  split; [reflexivity|].
  exact (proj1 (proj2 (stack_chk_guard_fallback_exported posix_build eq_refl))).
Defined.

(** C6 with an exported slot does not hold: [jl_init] is a
    runtime-exported function of the sample build, and nothing in the header
    declares [jl_init_addr] under [JL_DLLEXPORT]. *)
Lemma runtime_slot_exported_counterexample :
  "jl_init" ∈ runtime_exported_funcs posix_build
  ∧ ¬ ∃ d, d ∈ jl_exports posix_build
           ∧ declares d (paste_addr "jl_init") JL_DLLEXPORT.
Proof.
  split; [by_evaluation|].
  rewrite <- Exists_exists. by_evaluation.
Qed.

Lemma runtime_holder_hidden_witness :
  well_formed windows_build
  ∧ "jl_init" ∈ runtime_exported_funcs windows_build
  ∧ ∀ d, d ∈ jl_exports windows_build → declared_name d = "jl_init_addr" →
      declared_linkage d = Some JL_HIDDEN.
Proof.
  assert (Hwf : well_formed windows_build) by by_evaluation.
  assert (Hin : "jl_init" ∈ runtime_exported_funcs windows_build) by by_evaluation.
  split_and!; [exact Hwf | exact Hin |].
  exact (proj1 (proj2 (runtime_holder_hidden windows_build "jl_init" Hwf Hin))).
Defined.

Lemma addr_slot_exported_uninitialized_witness :
  "jl_get_pgcstack" ∈ runtime_exported_func_addrs posix_build
  ∧ Var JL_DLLEXPORT anonfunc_ptr "jl_get_pgcstack_addr" None
      ∈ jl_exports posix_build.
Proof.
  assert (Hin : "jl_get_pgcstack" ∈ runtime_exported_func_addrs posix_build)
    by by_evaluation.
  split; [exact Hin|].
  exact (proj1 (addr_slot_exported_uninitialized posix_build "jl_get_pgcstack" Hin)).
Defined.

Lemma personality_special_case_witness :
  _OS_WINDOWS_ windows_build = true
  ∧ Var JL_HIDDEN anonfunc_ptr "__julia_personality_addr" (Some NULL)
      ∈ jl_exports windows_build
  ∧ jl_runtime_exported_func_names windows_build !! 4
    = Some (Some "__julia_personality@16")
  ∧ jl_runtime_exported_func_addrs windows_build !! 4
    = Some (Some "__julia_personality_addr").
Proof.
  pose proof (personality_special_case windows_build eq_refl)
    as (Hslot & Hname & Haddr & _).
  split_and!; [reflexivity | exact Hslot | exact Hname | exact Haddr].
Defined.

Lemma codegen_holder_and_registry_witness :
  codegen_exported_funcs posix_build !! 0 = Some "jl_dump_function_ir"
  ∧ Var JL_HIDDEN anonfunc_ptr "jl_dump_function_ir_addr"
      (Some (addr_of "jl_dump_function_ir")) ∈ jl_exports posix_build
  ∧ jl_codegen_exported_func_names posix_build !! 0
    = Some (Some "jl_dump_function_ir_impl")
  ∧ jl_codegen_exported_func_addrs posix_build !! 0
    = Some (Some "jl_dump_function_ir_addr").
Proof.
  pose proof (codegen_holder_and_registry posix_build 0 "jl_dump_function_ir" eq_refl)
    as (Hslot & Hname & Haddr & _).
  split_and!; [reflexivity | exact Hslot | exact Hname | exact Haddr].
Defined.

Lemma addr_slots_registered_on_every_platform_witness :
  runtime_exported_func_addrs posix_build !! 1 = Some "jl_pgcstack_key"
  ∧ jl_runtime_exported_func_names posix_build !! 4
    = Some (Some "jl_pgcstack_key")
  ∧ runtime_exported_func_addrs windows_build !! 1 = Some "jl_pgcstack_key"
  ∧ jl_runtime_exported_func_names windows_build !! 6
    = Some (Some "jl_pgcstack_key").
Proof.
  split_and!.
  - reflexivity.
  - exact (proj1 (addr_slots_registered_on_every_platform
                    posix_build 1 "jl_pgcstack_key" eq_refl)).
  - reflexivity.
  - exact (proj1 (addr_slots_registered_on_every_platform
                    windows_build 1 "jl_pgcstack_key" eq_refl)).
Defined.

(** ** The rest of the header: what each part contains *)

Section Parts.
Variable b : build.

Lemma elem_of_data_pointers d :
  d ∈ data_pointers b ↔
    ∃ name, d = XX_data_pointer name
            ∧ (name ∈ exported_data_pointers b
               ∨ (_OS_WINDOWS_ b = true ∧ name ∈ exported_data_pointers_win b)).
Proof.
  unfold data_pointers, JL_EXPORTED_DATA_POINTERS, JL_EXPORTED_DATA_POINTERS_WIN.
  rewrite elem_of_app, elem_of_ifdef, !list_elem_of_fmap.
  split.
  - intros [(name & -> & H) | (Hw & name & -> & H)]; exists name; tauto.
  - intros (name & -> & [H | [Hw H]]); [left | right; split; [done|]];
      by exists name.
Qed.

Lemma elem_of_data_symbols d :
  d ∈ data_symbols b ↔
    ∃ name type, d = XX_data_symbol name type
                 ∧ ((name, type) ∈ exported_data_symbols b
                    ∨ (_OS_WINDOWS_ b = true
                       ∧ (name, type) ∈ exported_data_symbols_win b)).
Proof.
  unfold data_symbols, JL_EXPORTED_DATA_SYMBOLS, JL_EXPORTED_DATA_SYMBOLS_WIN.
  rewrite elem_of_app, elem_of_ifdef, !list_elem_of_fmap.
  split.
  - intros [([name type] & -> & H) | (Hw & [name type] & -> & H)];
      exists name, type; simpl; tauto.
  - intros (name & type & -> & [H | [Hw H]]); [left | right; split; [done|]];
      by exists (name, type).
Qed.

Lemma elem_of_stack_chk_guard d :
  d ∈ stack_chk_guard b ↔
    HAVE_SSP b = false ∧ d = Var JL_DLLEXPORT size_t "__stack_chk_guard" None.
Proof.
  unfold stack_chk_guard, ifndef. destruct (HAVE_SSP b).
  - split; [by intros ?%elem_of_nil | by intros [? _]].
  - rewrite list_elem_of_singleton. tauto.
Qed.

Lemma elem_of_func_decls d :
  d ∈ func_decls b ↔
    d = Typedef_anonfunc
    ∨ (∃ name, d = XX_func_decl name
               ∧ (name ∈ runtime_exported_funcs b
                  ∨ (_OS_WINDOWS_ b = true ∧ name ∈ runtime_exported_funcs_win b)
                  ∨ name ∈ codegen_exported_funcs b))
    ∨ (_OS_WINDOWS_ b = true ∧ d = Proto JL_DLLEXPORT true "__julia_personality").
Proof.
  unfold func_decls, JL_RUNTIME_EXPORTED_FUNCS, JL_RUNTIME_EXPORTED_FUNCS_WIN,
    JL_CODEGEN_EXPORTED_FUNCS.
  rewrite !elem_of_app, elem_of_ifdef, elem_of_app, !list_elem_of_fmap,
    !list_elem_of_singleton.
  split.
  - intros [-> | [(name & -> & H) | [(Hw & [(name & -> & H) | ->])
                                    | (name & -> & H)]]].
    + by left.
    + right; left; exists name; tauto.
    + right; left; exists name; tauto.
    + right; right; tauto.
    + right; left; exists name; tauto.
  - intros [-> | [(name & -> & [H | [[Hw H] | H]]) | [Hw ->]]].
    + by left.
    + right; left; by exists name.
    + right; right; left; split; [done|]. left; by exists name.
    + right; right; right; by exists name.
    + right; right; left; split; [done|]. by right.
Qed.

Lemma elem_of_addr_slots d :
  d ∈ addr_slots b ↔
    ∃ name, d = XX_addr_slot name ∧ name ∈ runtime_exported_func_addrs b.
Proof.
  unfold addr_slots, JL_RUNTIME_EXPORTED_FUNC_ADDRS. apply list_elem_of_fmap.
Qed.

(** The parts of the header, and nothing else, make up the header. *)
Lemma elem_of_jl_exports d :
  d ∈ jl_exports b ↔
    d ∈ data_pointers b ∨ d ∈ data_symbols b ∨ d ∈ stack_chk_guard b
    ∨ d ∈ func_decls b ∨ d ∈ holders b ∨ d ∈ addr_slots b
    ∨ d = NameTable "jl_runtime_exported_func_names"
            (jl_runtime_exported_func_names b)
    ∨ d = NameTable "jl_codegen_exported_func_names"
            (jl_codegen_exported_func_names b)
    ∨ d = AddrTable "jl_runtime_exported_func_addrs"
            (jl_runtime_exported_func_addrs b)
    ∨ d = AddrTable "jl_codegen_exported_func_addrs"
            (jl_codegen_exported_func_addrs b).
Proof.
  unfold jl_exports.
  rewrite !elem_of_app, !elem_of_cons, elem_of_nil. tauto.
Qed.

End Parts.

(** Splits a membership in the header into the part it comes from and
    exposes the macro that wrote the item. *)
Ltac header_cases H :=
  apply elem_of_jl_exports in H;
  destruct H as [H|[H|[H|[H|[H|[H|[H|[H|[H|H]]]]]]]]];
  [ apply elem_of_data_pointers in H as (? & H & ?)
  | apply elem_of_data_symbols in H as (? & ? & H & ?)
  | apply elem_of_stack_chk_guard in H as (? & H)
  | apply elem_of_func_decls in H as [H | [(? & H & ?) | [? H]]]
  | apply elem_of_holders in H as [(? & H & ?) | [? H]]
  | apply elem_of_addr_slots in H as (? & H & ?)
  | | | | ];
  unfold XX_data_pointer, XX_data_symbol, XX_func_decl, XX_holder,
    XX_addr_slot in H.

Section Coverage.
Variable b : build.

Lemma lookup_fmap_Some {A B} (f : A → B) (l : list A) (k : nat) (x : A) :
  l !! k = Some x → (f <$> l) !! k = Some (f x).
Proof. intros Hk. by rewrite list_lookup_fmap, Hk. Qed.

(** X1.  The header opens with the data pointers, in list order: the
    curated data pointer at position [k] of its list is item [k] of the
    header, [JL_DLLEXPORT const void * name;] with no initializer, and on a
    Windows build the Windows-only pointer at position [k] is the item [k]
    places after the primary ones. *)
Theorem data_pointers_open_the_header (k : nat) (name : ident) :
  (exported_data_pointers b !! k = Some name →
     jl_exports b !! k = Some (Var JL_DLLEXPORT const_void_ptr name None))
  ∧ (_OS_WINDOWS_ b = true →
     exported_data_pointers_win b !! k = Some name →
     jl_exports b !! (length (exported_data_pointers b) + k)
     = Some (Var JL_DLLEXPORT const_void_ptr name None)).
Proof.
  unfold jl_exports, data_pointers, JL_EXPORTED_DATA_POINTERS,
    JL_EXPORTED_DATA_POINTERS_WIN.
  split.
  - intros Hk. pose proof (lookup_lt_Some _ _ _ Hk) as Hlt.
    rewrite lookup_app_l by (rewrite length_app, length_fmap; lia).
    rewrite lookup_app_l by (rewrite length_fmap; lia).
    by apply (lookup_fmap_Some XX_data_pointer).
  - intros Hw Hk. rewrite Hw, ifdef_true.
    pose proof (lookup_lt_Some _ _ _ Hk) as Hlt.
    rewrite lookup_app_l by (rewrite length_app, !length_fmap; lia).
    rewrite lookup_app_r by (rewrite length_fmap; lia).
    rewrite length_fmap.
    replace (length (exported_data_pointers b) + k
             - length (exported_data_pointers b)) with k by lia.
    by apply (lookup_fmap_Some XX_data_pointer).
Qed.

(** X2.  The data symbols follow the data pointers, in list order and with
    the type their list gives: the curated pair [(name, type)] at position
    [k] is the item [k] places after the data pointers,
    [JL_DLLEXPORT type name;] with no initializer, and on a Windows build the
    Windows-only pair at position [k] is the item [k] places after the
    primary pairs. *)
Theorem data_symbols_follow_the_pointers
    (k : nat) (name : ident) (type : string) :
  (exported_data_symbols b !! k = Some (name, type) →
     jl_exports b !! (length (data_pointers b) + k)
     = Some (Var JL_DLLEXPORT (declared type) name None))
  ∧ (_OS_WINDOWS_ b = true →
     exported_data_symbols_win b !! k = Some (name, type) →
     jl_exports b
       !! (length (data_pointers b) + length (exported_data_symbols b) + k)
     = Some (Var JL_DLLEXPORT (declared type) name None))
  ∧ length (data_pointers b)
    = length (exported_data_pointers b)
      + (if _OS_WINDOWS_ b then length (exported_data_pointers_win b) else 0).
Proof.
  split_and!.
  - intros Hk. pose proof (lookup_lt_Some _ _ _ Hk) as Hlt.
    unfold jl_exports. rewrite lookup_app_r by lia.
    replace (length (data_pointers b) + k - length (data_pointers b))
      with k by lia.
    unfold data_symbols, JL_EXPORTED_DATA_SYMBOLS.
    rewrite lookup_app_l by (rewrite length_app, length_fmap; lia).
    rewrite lookup_app_l by (rewrite length_fmap; lia).
    by apply (lookup_fmap_Some (uncurry XX_data_symbol) _ _ (name, type)).
  - intros Hw Hk. pose proof (lookup_lt_Some _ _ _ Hk) as Hlt.
    unfold jl_exports. rewrite lookup_app_r by lia.
    replace (length (data_pointers b) + length (exported_data_symbols b) + k
             - length (data_pointers b))
      with (length (exported_data_symbols b) + k) by lia.
    unfold data_symbols, JL_EXPORTED_DATA_SYMBOLS, JL_EXPORTED_DATA_SYMBOLS_WIN.
    rewrite Hw, ifdef_true.
    rewrite lookup_app_l by (rewrite length_app, !length_fmap; lia).
    rewrite lookup_app_r by (rewrite length_fmap; lia).
    rewrite length_fmap.
    replace (length (exported_data_symbols b) + k
             - length (exported_data_symbols b)) with k by lia.
    by apply (lookup_fmap_Some (uncurry XX_data_symbol) _ _ (name, type)).
  - unfold data_pointers, JL_EXPORTED_DATA_POINTERS,
      JL_EXPORTED_DATA_POINTERS_WIN.
    rewrite length_app, length_fmap.
    destruct (_OS_WINDOWS_ b); simpl; [by rewrite length_fmap | done].
Qed.

(** X3.  The function prototypes of the header are exactly: a plain
    exported [void name(void)] for every runtime-exported function, every
    Windows-only one on Windows, and every codegen-exported function; and, on
    Windows only, the [NTAPI] prototype of [__julia_personality].  The
    address-slot names get no prototype of their own. *)
Theorem prototypes_are_the_curated_functions
    (l : linkage) (ntapi : bool) (name : ident) :
  Proto l ntapi name ∈ jl_exports b ↔
    l = JL_DLLEXPORT
    ∧ ((ntapi = false
        ∧ (name ∈ runtime_exported_funcs b
           ∨ (_OS_WINDOWS_ b = true ∧ name ∈ runtime_exported_funcs_win b)
           ∨ name ∈ codegen_exported_funcs b))
       ∨ (ntapi = true ∧ _OS_WINDOWS_ b = true ∧ name = "__julia_personality")).
Proof.
  split.
  - intros H. header_cases H; simplify_eq; tauto.
  - intros (-> & [(-> & H) | (-> & Hw & ->)]);
      apply elem_of_jl_exports; do 3 right; left; apply elem_of_func_decls.
    + right; left. by exists name.
    + right; right. done.
Qed.

(** X4.  Within the header an item is hidden exactly when it is one of
    the holders of lines 40-48, it is [static] exactly when it is one of the
    four tables, and it is defined with an initializer exactly when it is a
    holder or a table: no data variable, prototype or address slot is hidden
    or initialized, and no holder is exported or left without an
    initializer. *)
Theorem hidden_initialized_holder (d : toplevel) :
  d ∈ jl_exports b →
  (declared_linkage d = Some JL_HIDDEN ↔ d ∈ holders b)
  ∧ (declared_linkage d = Some static ↔
       d = NameTable "jl_runtime_exported_func_names"
             (jl_runtime_exported_func_names b)
       ∨ d = NameTable "jl_codegen_exported_func_names"
               (jl_codegen_exported_func_names b)
       ∨ d = AddrTable "jl_runtime_exported_func_addrs"
               (jl_runtime_exported_func_addrs b)
       ∨ d = AddrTable "jl_codegen_exported_func_addrs"
               (jl_codegen_exported_func_addrs b))
  ∧ (initialized d = true ↔
       declared_linkage d = Some JL_HIDDEN ∨ declared_linkage d = Some static).
Proof.
  intros Hd.
  assert (Hholder : d ∈ holders b →
            declared_linkage d = Some JL_HIDDEN ∧ initialized d = true).
  { intros [(name & -> & _) | [_ ->]]%elem_of_holders; simpl; eauto. }
  split_and!; split.
  - intros Hl. header_cases Hd; subst d; simpl in Hl; try discriminate Hl.
    + apply elem_of_holders. left. eauto.
    + apply elem_of_holders. right. eauto.
  - intros H. by apply Hholder.
  - intros Hl. header_cases Hd; subst d; simpl in Hl; try discriminate Hl; tauto.
  - intros [-> | [-> | [-> | ->]]]; done.
  - intros Hi. header_cases Hd; subst d; simpl in Hi; try discriminate Hi;
      simpl; tauto.
  - intros [Hl | Hl]; header_cases Hd; subst d; simpl in Hl;
      try discriminate Hl; done.
Qed.

(** The header as what comes before the prototypes, the prototypes, the
    holders, and what comes after. *)
Lemma jl_exports_around_holders :
  jl_exports b =
    (data_pointers b ++ data_symbols b ++ stack_chk_guard b)
    ++ func_decls b ++ holders b
    ++ (addr_slots b
        ++ [NameTable "jl_runtime_exported_func_names"
              (jl_runtime_exported_func_names b);
            NameTable "jl_codegen_exported_func_names"
              (jl_codegen_exported_func_names b);
            AddrTable "jl_runtime_exported_func_addrs"
              (jl_runtime_exported_func_addrs b);
            AddrTable "jl_codegen_exported_func_addrs"
              (jl_codegen_exported_func_addrs b)]).
Proof. unfold jl_exports. by rewrite <- !(assoc_L (++)). Qed.

Lemma lookup_app_not_in {A} (l1 l2 : list A) (j : nat) (y : A) :
  (l1 ++ l2) !! j = Some y → y ∉ l1 →
  length l1 ≤ j ∧ l2 !! (j - length l1) = Some y.
Proof.
  intros [Hl | Hr]%lookup_app_Some Hnot; [|done].
  exfalso; apply Hnot. apply list_elem_of_lookup. by exists j.
Qed.

(** X5.  Declaration before use: whenever an item of the header takes the
    address of a function, [= (anonfunc* )&target], the plain exported
    prototype of [target] stands earlier in the header. *)
Theorem address_taken_after_prototype
    (j : nat) (l : linkage) (ty : ctype) (name target : ident) :
  jl_exports b !! j = Some (Var l ty name (Some (addr_of target))) →
  ∃ i, i < j ∧ jl_exports b !! i = Some (Proto JL_DLLEXPORT false target).
Proof.
  rewrite jl_exports_around_holders. intros Hj.
  apply lookup_app_not_in in Hj as [Hpre Hj].
  2:{ rewrite !elem_of_app.
      intros [H | [H | H]].
      - apply elem_of_data_pointers in H as (? & H & _). discriminate H.
      - apply elem_of_data_symbols in H as (? & ? & H & _). discriminate H.
      - apply elem_of_stack_chk_guard in H as (_ & H). discriminate H. }
  apply lookup_app_not_in in Hj as [Hdecls Hj].
  2:{ intros [H | [(? & H & _) | [_ H]]]%elem_of_func_decls; discriminate H. }
  assert (Hin : Var l ty name (Some (addr_of target)) ∈ holders b).
  { apply lookup_app_Some in Hj as [Hj | [_ Hj]].
    - apply list_elem_of_lookup. eauto.
    - exfalso. apply list_elem_of_lookup_2 in Hj.
      rewrite elem_of_app, !elem_of_cons, elem_of_nil in Hj.
      destruct Hj as [(? & H & _)%elem_of_addr_slots | [H | [H | [H | [H | []]]]]];
        discriminate H. }
  apply elem_of_holders in Hin as [(g & Heq & Hg) | [_ Heq]]; [|discriminate Heq].
  unfold XX_holder in Heq. injection Heq as _ _ _ ->.
  assert (Hproto : Proto JL_DLLEXPORT false g ∈ func_decls b).
  { apply elem_of_func_decls. right; left. by exists g. }
  apply list_elem_of_lookup in Hproto as [i0 Hi0].
  exists (length (data_pointers b ++ data_symbols b ++ stack_chk_guard b) + i0).
  pose proof (lookup_lt_Some _ _ _ Hi0) as Hlt.
  split; [lia|].
  rewrite lookup_app_r by lia.
  rewrite lookup_app_l by lia.
  rewrite <- Hi0. f_equal. lia.
Qed.

Lemma elem_of_table {A} (l : list A) (x : A) :
  Some x ∈ (Some <$> l) ++ [None] ↔ x ∈ l.
Proof.
  rewrite elem_of_app, list_elem_of_singleton, list_elem_of_fmap. split.
  - intros [(y & [= ->] & Hy) | ?]; done.
  - intros Hx. left. by exists x.
Qed.

Lemma elem_of_runtime_addrs (s : ident) :
  Some s ∈ jl_runtime_exported_func_addrs b ↔
    (∃ name, runtime_registered b name ∧ s = paste_addr name)
    ∨ (_OS_WINDOWS_ b = true ∧ s = "__julia_personality_addr").
Proof.
  rewrite runtime_addrs_layout, elem_of_table. unfold runtime_registered.
  rewrite !elem_of_app, elem_of_ifdef, elem_of_app, !list_elem_of_fmap,
    list_elem_of_singleton.
  split.
  - intros [(name & -> & H) | [(Hw & [(name & -> & H) | ->]) | (name & -> & H)]].
    + left; exists name; tauto.
    + left; exists name; tauto.
    + right; tauto.
    + left; exists name; tauto.
  - intros [(name & [H | [[Hw H] | H]] & ->) | [Hw ->]].
    + left; by exists name.
    + right; left; split; [done|]. left; by exists name.
    + right; right; by exists name.
    + right; left; split; [done|]. by right.
Qed.

Lemma elem_of_codegen_addrs (s : ident) :
  Some s ∈ jl_codegen_exported_func_addrs b ↔
    ∃ name, name ∈ codegen_exported_funcs b ∧ s = paste_addr name.
Proof.
  rewrite codegen_addrs_layout, elem_of_table, list_elem_of_fmap.
  split; intros (name & H1 & H2); by exists name.
Qed.

(** X6.  The two address tables and the slots of the header cover each
    other: a slot address is an entry of one of the tables exactly when the
    header defines a slot of that name, as a holder or as an address slot.
    No table entry points at an undefined slot and no slot is left out of
    the tables. *)
Theorem table_addresses_are_the_defined_slots (s : ident) :
  (Some s ∈ jl_runtime_exported_func_addrs b
   ∨ Some s ∈ jl_codegen_exported_func_addrs b)
  ↔ ∃ d, d ∈ holders b ++ addr_slots b
         ∧ declared_name d = s
         ∧ ∃ l init, d = Var l anonfunc_ptr s init.
Proof.
  rewrite elem_of_runtime_addrs, elem_of_codegen_addrs. split.
  - intros [[(name & [H | [[Hw H] | H]] & ->) | [Hw ->]] | (name & H & ->)].
    + exists (XX_holder name). split_and!; [|done|by eexists _, _].
      apply elem_of_app; left. apply elem_of_holders. left. eauto.
    + exists (XX_holder name). split_and!; [|done|by eexists _, _].
      apply elem_of_app; left. apply elem_of_holders. left. eauto 6.
    + exists (XX_addr_slot name). split_and!; [|done|by eexists _, _].
      apply elem_of_app; right. apply elem_of_addr_slots. eauto.
    + exists (Var JL_HIDDEN anonfunc_ptr "__julia_personality_addr" (Some NULL)).
      split_and!; [|done|by eexists _, _].
      apply elem_of_app; left. apply elem_of_holders. right. eauto.
    + exists (XX_holder name). split_and!; [|done|by eexists _, _].
      apply elem_of_app; left. apply elem_of_holders. left. eauto 6.
  - intros (d & Hd & <- & _). apply elem_of_app in Hd as [Hd | Hd].
    + apply elem_of_holders in Hd
        as [(name & -> & [H | [[Hw H] | H]]) | [Hw ->]]; simpl.
      * left; left. exists name. unfold runtime_registered. tauto.
      * left; left. exists name. unfold runtime_registered. tauto.
      * right. by exists name.
      * left; right. done.
    + apply elem_of_addr_slots in Hd as (name & -> & H); simpl.
      left; left. exists name. unfold runtime_registered. tauto.
Qed.

(** X7.  On a build that is not for Windows the three Windows-only lists
    have no influence at all: the header is the one of the same build with
    those lists emptied.  It has no [NTAPI] prototype and no slot initialized
    to [NULL]. *)
Theorem windows_lists_ignored_elsewhere :
  _OS_WINDOWS_ b = false →
  jl_exports b = jl_exports (without_windows_lists b)
  ∧ (∀ l name, Proto l true name ∉ jl_exports b)
  ∧ (∀ l ty name, Var l ty name (Some NULL) ∉ jl_exports b).
Proof.
  intros Hw. split_and!.
  - unfold jl_exports, data_pointers, data_symbols, stack_chk_guard, func_decls,
      holders, addr_slots, jl_runtime_exported_func_names,
      jl_codegen_exported_func_names, jl_runtime_exported_func_addrs,
      jl_codegen_exported_func_addrs.
    cbn [_OS_WINDOWS_ without_windows_lists]. rewrite Hw. reflexivity.
  - intros l name H. header_cases H; simplify_eq. congruence.
  - intros l ty name H. header_cases H; simplify_eq. congruence.
Qed.

Lemma has_suffix_append (suffix x : string) :
  has_suffix suffix (x +:+ suffix) = true.
Proof.
  induction x as [|c x IH].
  - change ("" +:+ suffix) with suffix.
    destruct suffix; cbn [has_suffix]; by rewrite bool_decide_eq_true_2.
  - change (String c x +:+ suffix) with (String c (x +:+ suffix)).
    cbn [has_suffix]. rewrite IH. apply orb_true_r.
Qed.

(** X8.  With [HAVE_SSP] defined the header leaves the stack-protector
    guard to the toolchain: it introduces the identifier
    [__stack_chk_guard] only if one of the curated data or function lists
    names it. *)
Theorem guard_left_to_the_toolchain (d : toplevel) :
  HAVE_SSP b = true →
  d ∈ jl_exports b →
  declared_name d = "__stack_chk_guard" →
  "__stack_chk_guard" ∈ data_names b ++ function_names b.
Proof.
  intros Hssp Hd Hname.
  assert (Hslot : ∀ x, paste_addr x ≠ "__stack_chk_guard").
  { intros x Hx. pose proof (has_suffix_append "_addr" x) as Hs.
    unfold paste_addr in Hx. rewrite Hx in Hs. discriminate Hs. }
  unfold data_names, function_names.
  rewrite !elem_of_app, !elem_of_ifdef, elem_of_app.
  header_cases Hd; subst d; simpl in Hname; try discriminate Hname;
    try (by apply Hslot in Hname); subst.
  - tauto.
  - match goal with
    | H : (_, _) ∈ _ ∨ _ |- _ => destruct H as [H | [Hw H]]
    end.
    + left; right; left. apply list_elem_of_fmap. by eexists (_, _).
    + left; right; right. split; [done|]. apply list_elem_of_fmap.
      by eexists (_, _).
  - congruence.
  - tauto.
Qed.

Lemma lookup_sentinel_iff {A} (l : list A) (i : nat) :
  ((Some <$> l) ++ [None]) !! i = Some None ↔ i = length l.
Proof.
  split; [|intros ->; apply lookup_sentinel].
  intros [Hl | [Hge Hr]]%lookup_app_Some.
  - rewrite list_lookup_fmap in Hl. by destruct (l !! i).
  - rewrite length_fmap in *. apply lookup_lt_Some in Hr. simpl in Hr. lia.
Qed.

(** X9.  In each of the four tables [NULL] occurs at one index only, the
    last: a reader that walks a table until it meets [NULL] has seen every
    entry, whatever the curated lists hold. *)
Theorem sentinel_only_at_the_end (i : nat) :
  (jl_runtime_exported_func_names b !! i = Some None ↔
     i = length (runtime_exported_funcs b) + windows_entries b
         + length (runtime_exported_func_addrs b))
  ∧ (jl_runtime_exported_func_addrs b !! i = Some None ↔
       i = length (runtime_exported_funcs b) + windows_entries b
           + length (runtime_exported_func_addrs b))
  ∧ (jl_codegen_exported_func_names b !! i = Some None ↔
       i = length (codegen_exported_funcs b))
  ∧ (jl_codegen_exported_func_addrs b !! i = Some None ↔
       i = length (codegen_exported_funcs b)).
Proof.
  assert (Hwin : ∀ (f : ident → string) (x : string),
             length (ifdef (_OS_WINDOWS_ b)
                       ((f <$> runtime_exported_funcs_win b) ++ [x]))
             = windows_entries b).
  { intros f x. unfold windows_entries.
    destruct (_OS_WINDOWS_ b); simpl; [|done].
    by rewrite length_app, length_fmap. }
  rewrite runtime_names_layout, runtime_addrs_layout, codegen_names_layout,
    codegen_addrs_layout, !lookup_sentinel_iff.
  rewrite !length_app, !Hwin, !length_fmap.
  split_and!; split; lia.
Qed.

Lemma NoDup_table {A} (l : list A) :
  NoDup ((Some <$> l) ++ [None]) ↔ NoDup l.
Proof.
  rewrite NoDup_app, (NoDup_fmap Some). split.
  - by intros (? & _ & _).
  - intros Hl. split_and!; [done | | apply NoDup_singleton].
    intros x (y & -> & _)%list_elem_of_fmap Hin%list_elem_of_singleton.
    discriminate Hin.
Qed.

Lemma fmap_stringize (l : list ident) : stringize <$> l = l.
Proof. apply list_fmap_id. Qed.

Lemma runtime_names_public :
  jl_runtime_exported_func_names b = (Some <$> runtime_public_names b) ++ [None].
Proof.
  rewrite runtime_names_layout. by rewrite !fmap_stringize.
Qed.

Lemma runtime_addrs_sources :
  jl_runtime_exported_func_addrs b
  = (Some <$> (paste_addr <$> runtime_slot_sources b)) ++ [None].
Proof.
  rewrite runtime_addrs_layout. unfold runtime_slot_sources.
  do 2 f_equal. rewrite !fmap_app, fmap_ifdef, fmap_app. reflexivity.
Qed.

(** X10.  A table repeats an entry exactly when the curated lists behind it
    repeat a name: the suffixes [_addr] and [_impl] never merge two
    different names, so distinct curated names give distinct public names
    and distinct slots. *)
Theorem tables_repeat_only_repeated_names :
  (NoDup (jl_runtime_exported_func_names b) ↔ NoDup (runtime_public_names b))
  ∧ (NoDup (jl_runtime_exported_func_addrs b) ↔ NoDup (runtime_slot_sources b))
  ∧ (NoDup (jl_codegen_exported_func_names b) ↔ NoDup (codegen_exported_funcs b))
  ∧ (NoDup (jl_codegen_exported_func_addrs b) ↔ NoDup (codegen_exported_funcs b)).
Proof.
  rewrite runtime_names_public, runtime_addrs_sources, codegen_names_layout,
    codegen_addrs_layout, !NoDup_table.
  split_and!.
  - done.
  - apply NoDup_fmap. intros ??. apply paste_addr_inj.
  - apply NoDup_fmap. intros ??. apply stringize_impl_inj.
  - apply NoDup_fmap. intros ??. apply paste_addr_inj.
Qed.

(** The identifiers each part of the header introduces, in order. *)
Lemma fmap_declared_name {A} (XX : A → toplevel) (f : A → ident) (l : list A) :
  (∀ x, declared_name (XX x) = f x) →
  declared_name <$> (XX <$> l) = f <$> l.
Proof.
  intros HXX. rewrite <- list_fmap_compose.
  apply list_fmap_ext. intros _ x _. apply HXX.
Qed.

Lemma names_of_data :
  declared_name <$> (data_pointers b ++ data_symbols b) = data_names b.
Proof.
  unfold data_pointers, data_symbols, data_names, JL_EXPORTED_DATA_POINTERS,
    JL_EXPORTED_DATA_POINTERS_WIN, JL_EXPORTED_DATA_SYMBOLS,
    JL_EXPORTED_DATA_SYMBOLS_WIN.
  rewrite !fmap_app, !fmap_ifdef.
  rewrite !(fmap_declared_name XX_data_pointer id) by done.
  rewrite !(fmap_declared_name (uncurry XX_data_symbol) fst) by (by intros []).
  by rewrite !list_fmap_id.
Qed.

Lemma names_of_func_decls :
  declared_name <$> func_decls b = "anonfunc" :: function_names b.
Proof.
  unfold func_decls, function_names, JL_RUNTIME_EXPORTED_FUNCS,
    JL_RUNTIME_EXPORTED_FUNCS_WIN, JL_CODEGEN_EXPORTED_FUNCS.
  rewrite !fmap_app, fmap_ifdef, fmap_app.
  rewrite !(fmap_declared_name XX_func_decl id) by done.
  by rewrite !list_fmap_id.
Qed.

Lemma names_of_slots :
  declared_name <$> (holders b ++ addr_slots b) = paste_addr <$> slot_sources b.
Proof.
  unfold holders, addr_slots, slot_sources, function_names,
    JL_RUNTIME_EXPORTED_FUNCS, JL_RUNTIME_EXPORTED_FUNCS_WIN,
    JL_CODEGEN_EXPORTED_FUNCS, JL_RUNTIME_EXPORTED_FUNC_ADDRS.
  rewrite !fmap_app, !fmap_ifdef, !fmap_app.
  rewrite !(fmap_declared_name XX_holder paste_addr) by done.
  rewrite !(fmap_declared_name XX_addr_slot paste_addr) by done.
  by rewrite <- !(assoc_L (++)).
Qed.

Lemma names_of_jl_exports_eq :
  declared_name <$> jl_exports b =
    (data_names b ++ ifndef (HAVE_SSP b) ["__stack_chk_guard"]
     ++ ["anonfunc"] ++ function_names b)
    ++ (paste_addr <$> slot_sources b)
    ++ ["jl_runtime_exported_func_names"; "jl_codegen_exported_func_names";
        "jl_runtime_exported_func_addrs"; "jl_codegen_exported_func_addrs"].
Proof.
  rewrite <- names_of_slots, <- names_of_data.
  change (["anonfunc"] ++ function_names b) with ("anonfunc" :: function_names b).
  rewrite <- names_of_func_decls.
  assert (Hguard : ifndef (HAVE_SSP b) ["__stack_chk_guard"]
                   = declared_name <$> stack_chk_guard b)
    by (unfold stack_chk_guard; by destruct (HAVE_SSP b)).
  rewrite Hguard. unfold jl_exports.
  rewrite !fmap_app, <- !(assoc_L (++)). reflexivity.
Qed.

Lemma names_of_jl_exports :
  declared_name <$> jl_exports b ≡ₚ
    plain_names b ++ (paste_addr <$> slot_sources b).
Proof.
  rewrite names_of_jl_exports_eq. unfold plain_names.
  rewrite !(assoc_L (++)).
  rewrite <- (assoc_L (++) _ (paste_addr <$> slot_sources b)).
  rewrite <- (assoc_L (++) _ _ (paste_addr <$> slot_sources b)).
  apply Permutation_app_head, Permutation_app_comm.
Qed.

(** X11.  The header introduces no identifier twice exactly when the
    identifiers that are not slots are pairwise distinct, no name is given a
    slot twice (so no function is at once a runtime-exported function, a
    codegen-exported function or an address slot, and the personality
    routine is not listed on Windows), and no slot [name_addr] collides with
    another identifier of the header. *)
Theorem well_formed_iff :
  well_formed b ↔
    NoDup (plain_names b)
    ∧ NoDup (slot_sources b)
    ∧ ∀ name, name ∈ slot_sources b → paste_addr name ∉ plain_names b.
Proof.
  unfold well_formed.
  rewrite names_of_jl_exports, NoDup_app.
  assert (Hinj : Inj (=) (=) paste_addr) by (intros ??; apply paste_addr_inj).
  rewrite (NoDup_fmap paste_addr).
  split.
  - intros (Hplain & Hdisj & Hslots). split_and!; [done..|].
    intros name Hname Hin. apply (Hdisj _ Hin).
    by apply list_elem_of_fmap_2.
  - intros (Hplain & Hslots & Hdisj). split_and!; [done| |done].
    intros x Hx (name & -> & Hname)%list_elem_of_fmap.
    by apply (Hdisj name).
Qed.

(** X12.  Resolving a runtime-exported function through the registry: the
    function at position [i] of its curated list has its name at index [i]
    of the name table and the address of its own slot at index [i] of the
    address table, and that slot starts at the function itself.  The
    Windows-only functions follow with the same correspondence, shifted by
    the length of the primary list. *)
Theorem runtime_function_entries (i : nat) (name : ident) :
  (runtime_exported_funcs b !! i = Some name →
     jl_runtime_exported_func_names b !! i = Some (Some name)
     ∧ jl_runtime_exported_func_addrs b !! i = Some (Some (paste_addr name))
     ∧ Var JL_HIDDEN anonfunc_ptr (paste_addr name) (Some (addr_of name))
         ∈ jl_exports b)
  ∧ (_OS_WINDOWS_ b = true →
     runtime_exported_funcs_win b !! i = Some name →
     jl_runtime_exported_func_names b
       !! (length (runtime_exported_funcs b) + i) = Some (Some name)
     ∧ jl_runtime_exported_func_addrs b
         !! (length (runtime_exported_funcs b) + i)
       = Some (Some (paste_addr name))
     ∧ Var JL_HIDDEN anonfunc_ptr (paste_addr name) (Some (addr_of name))
         ∈ jl_exports b).
Proof.
  rewrite runtime_names_layout, runtime_addrs_layout. split.
  - intros Hi.
    assert (Hin : name ∈ runtime_exported_funcs b)
      by (apply list_elem_of_lookup; eauto).
    split_and!.
    + apply lookup_entry. rewrite lookup_app_l.
      * by rewrite list_lookup_fmap, Hi.
      * rewrite length_fmap. by eapply lookup_lt_Some.
    + apply lookup_entry. rewrite lookup_app_l.
      * by rewrite list_lookup_fmap, Hi.
      * rewrite length_fmap. by eapply lookup_lt_Some.
    + apply holder_in_header. tauto.
  - intros Hw Hi. rewrite Hw, !ifdef_true.
    assert (Hin : name ∈ runtime_exported_funcs_win b)
      by (apply list_elem_of_lookup; eauto).
    pose proof (lookup_lt_Some _ _ _ Hi) as Hlt.
    split_and!.
    + apply lookup_entry.
      rewrite lookup_app_r by (rewrite length_fmap; lia).
      rewrite length_fmap.
      replace (length (runtime_exported_funcs b) + i
               - length (runtime_exported_funcs b)) with i by lia.
      rewrite lookup_app_l by (rewrite length_app, length_fmap; lia).
      rewrite lookup_app_l by (rewrite length_fmap; lia).
      by rewrite list_lookup_fmap, Hi.
    + apply lookup_entry.
      rewrite lookup_app_r by (rewrite length_fmap; lia).
      rewrite length_fmap.
      replace (length (runtime_exported_funcs b) + i
               - length (runtime_exported_funcs b)) with i by lia.
      rewrite lookup_app_l by (rewrite length_app, length_fmap; lia).
      rewrite lookup_app_l by (rewrite length_fmap; lia).
      by rewrite list_lookup_fmap, Hi.
    + apply holder_in_header. tauto.
Qed.

Lemma table_is_sentinel {A} (l : list A) :
  (Some <$> l) ++ [None] = [None] ↔ l = [].
Proof.
  split; [|by intros ->].
  intros Heq. apply (f_equal length) in Heq.
  rewrite length_app, length_fmap in Heq. simpl in Heq.
  apply length_zero_iff_nil. lia.
Qed.

(** X13.  Empty curated lists: a table is never empty, it always ends in
    [NULL].  The codegen tables are the bare sentinel exactly when no
    codegen function is listed; the runtime tables are the bare sentinel
    exactly when no function and no address slot is listed and the build is
    not for Windows, where the personality entry is always there. *)
Theorem tables_of_empty_lists :
  (jl_runtime_exported_func_names b = [None] ↔
     runtime_exported_funcs b = [] ∧ runtime_exported_func_addrs b = []
     ∧ _OS_WINDOWS_ b = false)
  ∧ (jl_runtime_exported_func_addrs b = [None] ↔
       runtime_exported_funcs b = [] ∧ runtime_exported_func_addrs b = []
       ∧ _OS_WINDOWS_ b = false)
  ∧ (jl_codegen_exported_func_names b = [None] ↔ codegen_exported_funcs b = [])
  ∧ (jl_codegen_exported_func_addrs b = [None] ↔ codegen_exported_funcs b = [])
  ∧ jl_runtime_exported_func_names b ≠ []
  ∧ jl_runtime_exported_func_addrs b ≠ []
  ∧ jl_codegen_exported_func_names b ≠ []
  ∧ jl_codegen_exported_func_addrs b ≠ [].
Proof.
  assert (Hnil : ∀ {A B} (f : A → B) (l : list A), f <$> l = [] ↔ l = []).
  { intros A B f l. split; [apply fmap_nil_inv | by intros ->]. }
  assert (Hrt : ∀ (f : ident → string) (x : string),
            (f <$> runtime_exported_funcs b)
            ++ ifdef (_OS_WINDOWS_ b)
                 ((f <$> runtime_exported_funcs_win b) ++ [x])
            ++ (f <$> runtime_exported_func_addrs b) = []
            ↔ runtime_exported_funcs b = []
              ∧ runtime_exported_func_addrs b = []
              ∧ _OS_WINDOWS_ b = false).
  { intros f x. split.
    - intros (H1 & (H2 & H3)%app_eq_nil)%app_eq_nil.
      apply Hnil in H1. apply Hnil in H3.
      destruct (_OS_WINDOWS_ b); [|done].
      simpl in H2. apply app_eq_nil in H2 as [_ H2]. discriminate H2.
    - intros (-> & -> & ->). done. }
  rewrite runtime_names_layout, runtime_addrs_layout, codegen_names_layout,
    codegen_addrs_layout, !table_is_sentinel, !Hrt, !Hnil.
  split_and!; try done; intros [_ H]%app_eq_nil; discriminate H.
Qed.

End Coverage.

(** ** The further properties on the sample builds *)

Lemma data_pointers_open_the_header_witness :
  exported_data_pointers windows_build !! 1 = Some "jl_nothing"
  ∧ jl_exports windows_build !! 1
    = Some (Var JL_DLLEXPORT const_void_ptr "jl_nothing" None)
  ∧ exported_data_pointers_win windows_build !! 0 = Some "jl_win_handle"
  ∧ jl_exports windows_build !! 2
    = Some (Var JL_DLLEXPORT const_void_ptr "jl_win_handle" None).
Proof.
  split; [reflexivity|].
  split; [exact (proj1 (data_pointers_open_the_header windows_build 1 "jl_nothing")
                   eq_refl)|].
  split; [reflexivity|].
  exact (proj2 (data_pointers_open_the_header windows_build 0 "jl_win_handle")
           eq_refl eq_refl).
Defined.

Lemma data_symbols_follow_the_pointers_witness :
  exported_data_symbols windows_build !! 1 = Some ("jl_options", "jl_options_t")
  ∧ jl_exports windows_build !! 4
    = Some (Var JL_DLLEXPORT (declared "jl_options_t") "jl_options" None)
  ∧ exported_data_symbols_win windows_build !! 0 = Some ("jl_crt_fd", "int")
  ∧ jl_exports windows_build !! 5
    = Some (Var JL_DLLEXPORT (declared "int") "jl_crt_fd" None).
Proof.
  split; [reflexivity|].
  split; [exact (proj1 (data_symbols_follow_the_pointers
                          windows_build 1 "jl_options" "jl_options_t") eq_refl)|].
  split; [reflexivity|].
  exact (proj1 (proj2 (data_symbols_follow_the_pointers
                         windows_build 0 "jl_crt_fd" "int")) eq_refl eq_refl).
Defined.

Lemma prototypes_are_the_curated_functions_witness :
  Proto JL_DLLEXPORT true "__julia_personality" ∈ jl_exports windows_build
  ∧ Proto JL_DLLEXPORT false "jl_get_pgcstack" ∉ jl_exports windows_build.
Proof.
  split.
  - apply (proj2 (prototypes_are_the_curated_functions
                    windows_build JL_DLLEXPORT true "__julia_personality")).
    split; [reflexivity|]. right. by split_and!.
  - intros Hin.
    apply (prototypes_are_the_curated_functions
             windows_build JL_DLLEXPORT false "jl_get_pgcstack") in Hin
      as (_ & [(_ & Hin) | (Hf & _)]); [|discriminate Hf].
    revert Hin. by_evaluation.
Defined.

Lemma hidden_initialized_holder_witness :
  Var JL_DLLEXPORT anonfunc_ptr "jl_get_pgcstack_addr" None ∈ jl_exports posix_build
  ∧ (Var JL_DLLEXPORT anonfunc_ptr "jl_get_pgcstack_addr" None
       ∉ holders posix_build)
  ∧ AddrTable "jl_codegen_exported_func_addrs"
      (jl_codegen_exported_func_addrs posix_build) ∈ jl_exports posix_build
  ∧ initialized (AddrTable "jl_codegen_exported_func_addrs"
                   (jl_codegen_exported_func_addrs posix_build)) = true.
Proof.
  assert (Hslot : Var JL_DLLEXPORT anonfunc_ptr "jl_get_pgcstack_addr" None
                    ∈ jl_exports posix_build) by by_evaluation.
  assert (Htable : AddrTable "jl_codegen_exported_func_addrs"
                     (jl_codegen_exported_func_addrs posix_build)
                     ∈ jl_exports posix_build) by by_evaluation.
  split; [exact Hslot|]. split; [|split; [exact Htable|]].
  - intros Hholder.
    apply (proj1 (hidden_initialized_holder posix_build _ Hslot)) in Hholder.
    discriminate Hholder.
  - apply (proj2 (proj2 (hidden_initialized_holder posix_build _ Htable))).
    right. reflexivity.
Defined.

Lemma address_taken_after_prototype_witness :
  jl_exports posix_build !! 11
  = Some (Var JL_HIDDEN anonfunc_ptr "jl_init_addr" (Some (addr_of "jl_init")))
  ∧ ∃ i, i < 11
         ∧ jl_exports posix_build !! i = Some (Proto JL_DLLEXPORT false "jl_init").
Proof.
  split; [reflexivity|].
  exact (address_taken_after_prototype posix_build 11 JL_HIDDEN anonfunc_ptr
           "jl_init_addr" "jl_init" eq_refl).
Defined.

Lemma table_addresses_are_the_defined_slots_witness :
  (Some "jl_dump_function_ir_addr" ∈ jl_runtime_exported_func_addrs posix_build
   ∨ Some "jl_dump_function_ir_addr" ∈ jl_codegen_exported_func_addrs posix_build)
  ∧ ∃ d, d ∈ holders posix_build ++ addr_slots posix_build
         ∧ declared_name d = "jl_dump_function_ir_addr"
         ∧ ∃ l init, d = Var l anonfunc_ptr "jl_dump_function_ir_addr" init.
Proof.
  assert (H : Some "jl_dump_function_ir_addr"
                ∈ jl_runtime_exported_func_addrs posix_build
              ∨ Some "jl_dump_function_ir_addr"
                  ∈ jl_codegen_exported_func_addrs posix_build)
    by (right; by_evaluation).
  split; [exact H|].
  exact (proj1 (table_addresses_are_the_defined_slots
                  posix_build "jl_dump_function_ir_addr") H).
Defined.

Lemma windows_lists_ignored_elsewhere_witness :
  _OS_WINDOWS_ posix_build = false
  ∧ jl_exports posix_build = jl_exports (without_windows_lists posix_build).
Proof.
  split; [reflexivity|].
  exact (proj1 (windows_lists_ignored_elsewhere posix_build eq_refl)).
Defined.

Lemma guard_left_to_the_toolchain_witness :
  HAVE_SSP ssp_build = true
  ∧ Var JL_DLLEXPORT (declared "uintptr_t") "__stack_chk_guard" None
      ∈ jl_exports ssp_build
  ∧ "__stack_chk_guard" ∈ data_names ssp_build ++ function_names ssp_build.
Proof.
  assert (Hin : Var JL_DLLEXPORT (declared "uintptr_t") "__stack_chk_guard" None
                  ∈ jl_exports ssp_build) by by_evaluation.
  split_and!; [reflexivity | exact Hin |].
  exact (guard_left_to_the_toolchain ssp_build _ eq_refl Hin eq_refl).
Defined.

Lemma sentinel_only_at_the_end_witness :
  jl_runtime_exported_func_names windows_build !! 7 = Some None
  ∧ jl_runtime_exported_func_names windows_build !! 4 ≠ Some None.
Proof.
  split.
  - apply (proj2 (proj1 (sentinel_only_at_the_end windows_build 7))).
    reflexivity.
  - intros H.
    apply (proj1 (proj1 (sentinel_only_at_the_end windows_build 4))) in H.
    discriminate H.
Defined.

Lemma tables_repeat_only_repeated_names_witness :
  NoDup (runtime_slot_sources windows_build)
  ∧ NoDup (jl_runtime_exported_func_addrs windows_build).
Proof.
  assert (H : NoDup (runtime_slot_sources windows_build)) by by_evaluation.
  split; [exact H|].
  exact (proj2 (proj1 (proj2 (tables_repeat_only_repeated_names windows_build))) H).
Defined.

Lemma well_formed_iff_witness :
  well_formed windows_build
  ∧ NoDup (slot_sources windows_build)
  ∧ ¬ well_formed (Build true false [] [] [] [] ["jl_init"] [] ["jl_init"] []).
Proof.
  assert (H : well_formed windows_build) by by_evaluation.
  split_and!; [exact H | |].
  - exact (proj1 (proj2 (proj1 (well_formed_iff windows_build) H))).
  - intros Hwf.
    apply (well_formed_iff
             (Build true false [] [] [] [] ["jl_init"] [] ["jl_init"] []))
      in Hwf as (_ & Hdup & _).
    revert Hdup. by_evaluation.
Defined.

Lemma runtime_function_entries_witness :
  runtime_exported_funcs_win windows_build !! 0 = Some "jl_setjmp"
  ∧ jl_runtime_exported_func_names windows_build !! 3 = Some (Some "jl_setjmp")
  ∧ jl_runtime_exported_func_addrs windows_build !! 3
    = Some (Some "jl_setjmp_addr").
Proof.
  pose proof (proj2 (runtime_function_entries windows_build 0 "jl_setjmp")
                eq_refl eq_refl) as (Hname & Haddr & _).
  split_and!; [reflexivity | exact Hname | exact Haddr].
Defined.

Lemma tables_of_empty_lists_witness :
  jl_runtime_exported_func_names (empty_build false) = [None]
  ∧ jl_runtime_exported_func_names (empty_build true)
    = [Some "__julia_personality@16"; None]
  ∧ jl_runtime_exported_func_names (empty_build true) ≠ [None].
Proof.
  split_and!.
  - apply (proj1 (tables_of_empty_lists (empty_build false))). done.
  - reflexivity.
  - intros H.
    apply (proj1 (tables_of_empty_lists (empty_build true))) in H
      as (_ & _ & Hw).
    discriminate Hw.
Defined.
